(** * Foot-traffic simulation: a shallow embedding of [simulate.py]

    The development follows [run_simulation] and [define_acs_variables].
    Hours of the day are the naturals [0..23]; sampled times are exact
    rationals; the 24 per-hour frames are a list of finite maps from the
    edge index [(u, v, key)] to the [foot_traffic] column; exceptions are
    an explicit result type; the random source, the geometry predicate,
    the router and the weighted sampler are parameters of the simulation.

    The source computes its times in binary64. Comparing an hour with a
    time is exact there, but the sums and the remainder of lines 174,
    176 and 196-206 are rounded, and the rationals do not round: the
    theorems that evaluate a schedule do so at draws where binary64 is
    exact, the theorems about the loops of a day take the value of the
    sleep test at each hour as given, and a lemma stated for all times
    is a lemma about the exact values. *)

From Stdlib Require Import QArith Qround Lqa.
From stdpp Require Import gmap strings list fin_maps pretty.

Local Open Scope Z_scope.

(** ** Rational times *)

(** Every finite binary64 value is a rational, and a comparison of two
    of them is the comparison of the rationals. The sums, the mean and
    the remainder below are the exact ones: the source rounds each of
    them to binary64. *)
Module Time.

Definition leb (x y : Q) : bool := Qle_bool x y.
Definition ltb (x y : Q) : bool := negb (Qle_bool y x).

(** Python's [x % m] on floats, for a positive modulus. *)
Definition fmod (x m : Q) : Q := (x - m * inject_Z (Qfloor (x / m)))%Q.

(** An hour of [range(24)] as a time. *)
Definition of_hour (hour : nat) : Q := inject_Z (Z.of_nat hour).

(** [np.mean] of a two-element tuple. *)
Definition mean (w : Q * Q) : Q := ((fst w + snd w) / 2)%Q.

End Time.

(** ** Exceptions *)

Inductive exn := IndexError | ValueError | KeyError | TypeError | NetworkXNoPath.

Inductive result (A : Type) :=
| Ok (a : A)
| Raise (e : exn).
Arguments Ok {A} a.
Arguments Raise {A} e.

Definition bind {A B} (m : result A) (f : A -> result B) : result B :=
  match m with
  | Ok a => f a
  | Raise e => Raise e
  end.

Notation "'let!' x ':=' m 'in' k" := (bind m (fun x => k))
  (at level 10, x name, m at level 100, k at level 200).

(** A [for] loop whose body may raise: the first exception ends the loop. *)
Fixpoint for_each {A S} (body : A -> S -> result S) (xs : list A) (s : S) : result S :=
  match xs with
  | [] => Ok s
  | x :: xs' => let! s' := body x s in for_each body xs' s'
  end.

(** ** Road edges and the hourly frames *)

(** The edge index of the edges frame: [(u, v, key)]. *)
Definition edge_id : Type := Z * Z * Z.
Definition edge_u (e : edge_id) : Z := fst (fst e).
Definition edge_v (e : edge_id) : Z := snd (fst e).
Definition edge_key (e : edge_id) : Z := snd e.

(** One frame: the [foot_traffic] column, indexed by edge. *)
Abbreviation frame := (gmap edge_id Z).

(** [hourly_foot_traffic]: one frame per hour of [range(24)]. *)
Abbreviation hourly := (list (gmap edge_id Z)).

(** [edges['foot_traffic'] = 0]. *)
Definition zero_frame (edges : list edge_id) : frame :=
  list_to_map ((fun e => (e, 0)) <$> edges).

(** [{hour: edges.copy() for hour in range(24)}]. *)
Definition init_hourly (edges : list edge_id) : hourly :=
  (fun _ => zero_frame edges) <$> seq 0 24.

(** [hourly_foot_traffic[hour].loc[e, 'foot_traffic'] += 1]; a missing
    hour or a label missing from the frame raises [KeyError]. *)
Definition credit (hour : nat) (e : edge_id) (T : hourly) : result hourly :=
  match T !! hour with
  | None => Raise KeyError
  | Some gdf =>
      match gdf !! e with
      | None => Raise KeyError
      | Some c => Ok (<[hour := <[e := c + 1]> gdf]> T)
      end
  end.

(** The count read back from the frames; an absent entry reads as 0. *)
Definition foot_traffic (T : hourly) (hour : nat) (e : edge_id) : Z :=
  match T !! hour with
  | Some gdf => default 0 (gdf !! e)
  | None => 0
  end.

(** The order in which counters only grow: the same 24 frames, every
    counter at least as large. *)
Definition grows (T T' : hourly) : Prop :=
  length T' = length T /\
  forall hour e, foot_traffic T hour e <= foot_traffic T' hour e.

(** The rows of [all_hours_gdf]: edge, hour, [foot_traffic]. *)
Definition row : Type := edge_id * nat * Z.
Definition row_edge (r : row) : edge_id := fst (fst r).
Definition row_hour (r : row) : nat := snd (fst r).
Definition row_count (r : row) : Z := snd r.

(** [gdf['hour'] = hour; gdf[gdf['foot_traffic'] > 0]], concatenated
    over the 24 frames. The rows of one hour come in the order of the
    keys of the map, not of the edges frame. *)
Definition finalize (T : hourly) : list row :=
  mjoin (imap (fun hour (gdf : frame) =>
                 (fun ec : edge_id * Z => (fst ec, hour, snd ec)) <$>
                 List.filter (fun ec : edge_id * Z => 0 <? snd ec) (map_to_list gdf))
              T).

(** ** Commute modes and ACS variables *)

Inductive mode := wfh | drive | carpool | transit | walk | other.

Definition mode_eqb (a b : mode) : bool :=
  match a, b with
  | wfh, wfh | drive, drive | carpool, carpool
  | transit, transit | walk, walk | other, other => true
  | _, _ => false
  end.

(** ['B08006_017E'] and ['B08132_%03dE']. *)
Inductive acs_var := B08006 (n : nat) | B08132 (n : nat).

Definition time_windows : list (Q * Q) :=
  [ (0, 5); (5, 11 # 2); (11 # 2, 6); (6, 13 # 2); (13 # 2, 7);
    (7, 15 # 2); (15 # 2, 8); (8, 17 # 2); (17 # 2, 9); (9, 10);
    (10, 11); (11, 12); (12, 16); (16, 24) ]%Q.

(** Python's [range(a, b)] on naturals. *)
Definition range (a b : nat) : list nat := seq a (b - a).

Definition modes : list (mode * list nat) :=
  [ (drive, range 17 31); (carpool, range 32 46); (transit, range 47 61);
    (walk, range 62 76); (other, range 77 91) ].

Definition define_acs_variables : list (acs_var * (mode * option (Q * Q))) :=
  (B08006 17, (wfh, None)) ::
  flat_map (fun mr : mode * list nat =>
              imap (fun i var_num => (B08132 var_num, (fst mr, time_windows !! i)))
                   (snd mr))
           modes.

#[global] Instance acs_var_eq_dec : EqDecision acs_var.
Proof. solve_decision. Defined.

(** ** Inputs *)

(** A row of the LODES origin-destination table. *)
Record flow_record := {
  h_geocode : string;
  w_geocode : string;
  S000 : Z
}.

(** A row of the ACS table: the tract and [int(home_tract[var])], for a
    row whose counts are numbers ([int] of a missing value raises at
    line 160, before any worker of the variable). *)
Record acs_row := {
  GEOID : string;
  workers : acs_var -> Z
}.

(** What one worker reads from the random source. *)
Record draws := {
  home_pick : nat;            (* roads_in_home_tract.sample(1) *)
  uniform_sleep : Q;          (* np.random.uniform(5, 9) *)
  normal_work_start : Q;      (* np.random.normal(9, 1) *)
  od_pick : nat;              (* od_pairs.sample(1, weights='S000') *)
  work_pick : nat;            (* roads_in_work_tract.sample(1) *)
  normal_departure : Q -> Q;  (* np.random.normal(loc=., scale=0.5) *)
  uniform_commute : Q         (* np.random.uniform(0.25, 1.5) *)
}.

(** [.iloc[0]] *)
Definition iloc0 {A} (l : list A) : result A :=
  match l with
  | [] => Raise IndexError
  | x :: _ => Ok x
  end.

(** [.sample(1).iloc[0]] without weights; sampling an empty frame
    raises [ValueError]. *)
Definition sample1 {A} (l : list A) (pick : nat) : result A :=
  match l !! (pick mod length l)%nat with
  | Some x => Ok x
  | None => Raise ValueError
  end.

(** Everything [run_simulation] obtains from its collaborators: the
    loaded tables, the road network with its geometry test and router,
    the weighted sampler of the flow table, and the random source, read
    per tract row, variable and worker. *)
Record world (geometry : Type) := {
  edges : list edge_id;
  intersects : edge_id -> geometry -> bool;       (* edges.intersects(geom) *)
  tracts_geo : list (string * geometry);
  lodes_data : list flow_record;
  acs_data : list acs_row;
  (* lines 218-219 and the labels of line 221: the lookups
     home_edge['u'] and work_edge['v'], ox.shortest_path,
     get_route_edge_attributes and (edge['u'], edge['v'], edge['key']),
     with whatever any of them raises *)
  route_edges : Z -> Z -> result (list edge_id);
  (* od_pairs.sample(1, weights='S000').iloc[0] *)
  sample_weighted : list flow_record -> nat -> result flow_record;
  rng : nat -> acs_var -> nat -> draws
}.
Arguments edges {geometry} w.
Arguments intersects {geometry} w.
Arguments tracts_geo {geometry} w.
Arguments lodes_data {geometry} w.
Arguments acs_data {geometry} w.
Arguments route_edges {geometry} w.
Arguments sample_weighted {geometry} w.
Arguments rng {geometry} w.

(** ** The schedule of one worker *)

(** The states of an hour; the source names three of them in comments
    (at home, at work, commuting to work), skips sleeping hours, and has
    no branch for the hours left over. *)
Inductive state := asleep | at_home | commuting_out | at_work | commuting_back.

Record schedule := {
  sleep_start_hour : Q;
  sleep_duration : Q;
  departure_hour : Q;
  arrival_hour : Q;
  return_departure : Q;
  return_arrival : Q
}.

(** Lines 195-201, with exact sums and an exact remainder. *)
Definition make_schedule (time_window : Q * Q) (d : draws) : schedule :=
  let sleep_duration := uniform_sleep d in
  let departure_hour := normal_departure d (Time.mean time_window) in
  let arrival_hour := (departure_hour + uniform_commute d)%Q in
  let return_departure := (arrival_hour + 8)%Q in
  let return_arrival := (return_departure + (arrival_hour - departure_hour))%Q in
  let sleep_start_hour :=
    Time.fmod (departure_hour - sleep_duration - 1 + 24)%Q 24%Q in
  {| sleep_start_hour := sleep_start_hour;
     sleep_duration := sleep_duration;
     departure_hour := departure_hour;
     arrival_hour := arrival_hour;
     return_departure := return_departure;
     return_arrival := return_arrival |}.

(** Line 174, with exact sums and an exact remainder. *)
Definition wfh_sleep_start (work_start_hour sleep_duration : Q) : Q :=
  Time.fmod (work_start_hour - sleep_duration - 1 + 24)%Q 24%Q.

(** The test of line 176, without its [not]: the hours a work-from-home
    worker spends asleep. The end of the sleep is the exact sum and
    remainder. *)
Definition wfh_sleeping (sleep_start_hour sleep_duration : Q) (hour : nat) : bool :=
  Time.leb sleep_start_hour (Time.of_hour hour) &&
  Time.ltb (Time.of_hour hour)
           (Time.fmod (sleep_start_hour + sleep_duration)%Q 24%Q).

(** [is_sleeping], lines 205-206. The end of the sleep is the exact sum
    and remainder. *)
Definition is_sleeping (sleep_start_hour sleep_duration : Q) (hour : nat) : bool :=
  (Time.leb sleep_start_hour (Time.of_hour hour) &&
   Time.ltb (Time.of_hour hour) (sleep_start_hour + sleep_duration)%Q)
  || (Time.ltb 24%Q (sleep_start_hour + sleep_duration)%Q &&
      Time.ltb (Time.of_hour hour)
               (Time.fmod (sleep_start_hour + sleep_duration)%Q 24%Q)).

(** The conditions of the [if]/[elif] chain of lines 208-215, as the
    state they select. *)
Definition classify (sch : schedule) (hour : nat) : state :=
  let h := Time.of_hour hour in
  if is_sleeping (sleep_start_hour sch) (sleep_duration sch) hour then asleep
  else if Time.ltb h (departure_hour sch) || Time.leb (return_arrival sch) h
       then at_home
  else if Time.leb (arrival_hour sch) h && Time.ltb h (return_departure sch)
       then at_work
  else if Time.leb (departure_hour sch) h && Time.ltb h (arrival_hour sch)
       then commuting_out
  else commuting_back.

Definition state_eqb (a b : state) : bool :=
  match a, b with
  | asleep, asleep | at_home, at_home | commuting_out, commuting_out
  | at_work, at_work | commuting_back, commuting_back => true
  | _, _ => false
  end.

Definition states : list state :=
  [asleep; at_home; commuting_out; at_work; commuting_back].

(** The states of a work-from-home worker (lines 175-177). *)
Definition classify_wfh (sleep_start_hour sleep_duration : Q) (hour : nat) : state :=
  if wfh_sleeping sleep_start_hour sleep_duration hour then asleep else at_home.

(** ** The simulation loops *)

Section Simulation.
Context {geometry : Type} (w : world geometry).

(** [tracts_geo[tracts_geo['GEOID'] == geoid].iloc[0].geometry] *)
Definition tract_geometry (geoid : string) : result geometry :=
  let! r := iloc0 (List.filter (fun r => String.eqb (fst r) geoid) (tracts_geo w)) in
  Ok (snd r).

(** [edges[edges.intersects(geom)]] *)
Definition roads_in (geom : geometry) : list edge_id :=
  List.filter (fun e => intersects w e geom) (edges w).

(** Lines 175-177: the day of a work-from-home worker. *)
Definition wfh_hour (sleep_start_hour sleep_duration : Q) (home_edge : edge_id)
    (hour : nat) (T : hourly) : result hourly :=
  if negb (wfh_sleeping sleep_start_hour sleep_duration hour)
  then credit hour home_edge T
  else Ok T.

(** Lines 216-223: the [try] of the walk and other modes. What lines
    218-219 and the labels of line 221 do is [route_edges]: the route
    as labels of the frame, or the exception that ends the [try] (a
    [KeyError] where the edges frame has no column [u], a [TypeError]
    where the router returns no route). Of these only
    [NetworkXNoPath] is handled, and it comes before any credit of the
    hour. *)
Definition route_credits (home_edge work_edge : edge_id) (hour : nat)
    (T : hourly) : result hourly :=
  match (let! path_edges := route_edges w (edge_u home_edge) (edge_v work_edge) in
         for_each (credit hour) path_edges T) with
  | Raise NetworkXNoPath => credit hour home_edge T
  | r => r
  end.

(** Lines 205-229: the body of the loop over the hours of a commuter.
    The two calls of [ox.nearest_nodes] of lines 226-227, whose results
    are not used, are left out. *)
Definition commuter_hour (m : mode) (home_edge work_edge : edge_id)
    (sch : schedule) (hour : nat) (T : hourly) : result hourly :=
  let h := Time.of_hour hour in
  if is_sleeping (sleep_start_hour sch) (sleep_duration sch) hour then Ok T
  else if Time.ltb h (departure_hour sch) || Time.leb (return_arrival sch) h
  then credit hour home_edge T
  else if Time.leb (arrival_hour sch) h && Time.ltb h (return_departure sch)
  then credit hour work_edge T
  else if Time.leb (departure_hour sch) h && Time.ltb h (arrival_hour sch)
  then
    if mode_eqb m walk || mode_eqb m other
    then route_credits home_edge work_edge hour T
    else if mode_eqb m transit
    then let! T1 := credit hour home_edge T in credit hour work_edge T1
    else Ok T
  else Ok T.

(** Lines 185-192: the work edge, or [None] where the source
    [continue]s. *)
Definition assign_work (work_tract_geoid : string) (d : draws) : result (option edge_id) :=
  match (let! work_tract_geom := tract_geometry work_tract_geoid in
         let roads_in_work_tract := roads_in work_tract_geom in
         match roads_in_work_tract with
         | [] => Ok None
         | _ => let! work_edge := sample1 roads_in_work_tract (work_pick d) in
                Ok (Some work_edge)
         end) with
  | Raise IndexError | Raise ValueError => Ok None
  | r => r
  end.

(** Lines 165-229: one iteration of the loop over the workers. *)
Definition simulate_worker (m : mode) (time_window : option (Q * Q))
    (roads_in_home_tract : list edge_id) (od_pairs : list flow_record)
    (d : draws) (T : hourly) : result hourly :=
  let! home_edge := sample1 roads_in_home_tract (home_pick d) in
  let sleep_duration := uniform_sleep d in
  if mode_eqb m wfh then
    let work_start_hour := normal_work_start d in
    let sleep_start_hour := wfh_sleep_start work_start_hour sleep_duration in
    for_each (wfh_hour sleep_start_hour sleep_duration home_edge) (seq 0 24) T
  else
    match od_pairs with
    | [] => Ok T
    | _ =>
        let! od := sample_weighted w od_pairs (od_pick d) in
        let work_tract_geoid := w_geocode od in
        let! work := assign_work work_tract_geoid d in
        match work with
        | None => Ok T
        | Some work_edge =>
            match time_window with
            | None => Raise TypeError
            | Some tw =>
                for_each (commuter_hour m home_edge work_edge (make_schedule tw d))
                         (seq 0 24) T
            end
        end
    end.

(** Lines 160-164: the loop over the workers of one variable. *)
Definition for_each_worker {S} (num_workers : Z) (body : nat -> S -> result S)
    (s : S) : result S :=
  if num_workers <=? 0 then Ok s
  else for_each body (seq 0 (Z.to_nat num_workers)) s.

(** Lines 148-154: the roads of the home tract, or [None] where the
    source [continue]s. *)
Definition assign_home_roads (home_tract_geoid : string) : result (option (list edge_id)) :=
  match (let! home_tract_geom := tract_geometry home_tract_geoid in
         let roads_in_home_tract := roads_in home_tract_geom in
         match roads_in_home_tract with
         | [] => Ok None
         | _ => Ok (Some roads_in_home_tract)
         end) with
  | Raise IndexError => Ok None
  | r => r
  end.

(** Lines 159-229 for one variable of one tract row. *)
Definition simulate_variable (i : nat) (home_tract : acs_row)
    (roads_in_home_tract : list edge_id) (od_pairs : list flow_record)
    (entry : acs_var * (mode * option (Q * Q))) (T : hourly) : result hourly :=
  let var := fst entry in
  let m := fst (snd entry) in
  let time_window := snd (snd entry) in
  let num_workers := workers home_tract var in
  for_each_worker num_workers
    (fun k => simulate_worker m time_window roads_in_home_tract od_pairs (rng w i var k))
    T.

(** Lines 144-229: one iteration of the loop over the tract rows. *)
Definition simulate_tract (ir : nat * acs_row) (T : hourly) : result hourly :=
  let i := fst ir in
  let home_tract := snd ir in
  let home_tract_geoid := GEOID home_tract in
  let! home := assign_home_roads home_tract_geoid in
  match home with
  | None => Ok T
  | Some roads_in_home_tract =>
      let od_pairs :=
        List.filter (fun r => String.eqb (h_geocode r) home_tract_geoid) (lodes_data w) in
      for_each (simulate_variable i home_tract roads_in_home_tract od_pairs)
               define_acs_variables T
  end.

(** The frames after the loop over [acs_data.iterrows()]. *)
Definition simulate_all : result hourly :=
  for_each simulate_tract (imap pair (acs_data w)) (init_hourly (edges w)).

(** [run_simulation]: the returned [all_hours_gdf]. The write of the
    table to [FOOT_TRAFFIC_CACHE] (line 240) is left out. *)
Definition run_simulation : result (list row) :=
  let! T := simulate_all in Ok (finalize T).

End Simulation.

(** ** The sleep interval as the schedule describes it *)

(** The hour lies in [sleep_start, sleep_start + sleep_duration), the
    interval continuing past 24 into the first hours of the day. *)
Definition in_sleep_interval (sleep_start_hour sleep_duration : Q) (hour : nat) : bool :=
  let h := Time.of_hour hour in
  (Time.leb sleep_start_hour h && Time.ltb h (sleep_start_hour + sleep_duration)%Q)
  || (Time.leb sleep_start_hour (h + 24)%Q &&
      Time.ltb (h + 24)%Q (sleep_start_hour + sleep_duration)%Q).

(** The hours of [range(24)] on which a test holds. *)
Definition hours_where (p : nat -> bool) : list nat := List.filter p (seq 0 24).

(** The counters of one edge through the day, hour by hour. *)
Definition day_counts (T : hourly) (e : edge_id) : list Z :=
  (fun hour => foot_traffic T hour e) <$> seq 0 24.

(** A function applied to the value of a computation that returns. *)
Definition result_map {A B} (f : A -> B) (r : result A) : result B :=
  let! a := r in Ok (f a).

Definition returns {A} (r : result A) : bool :=
  match r with
  | Ok _ => true
  | Raise _ => false
  end.

(** ** A small town *)

Module Town.

Definition home_edge : edge_id := (1, 2, 0).
Definition mid_edge : edge_id := (2, 3, 0).
Definition work_edge : edge_id := (3, 4, 0).

(** Tract polygons are numbered; polygon 0 meets the home edge and
    polygon 1 the work edge. *)
Definition meets (e : edge_id) (g : nat) : bool :=
  match g with
  | O => bool_decide (e = home_edge)
  | S O => bool_decide (e = work_edge)
  | _ => false
  end.

Definition flows : list flow_record :=
  [ {| h_geocode := "24510000100"; w_geocode := "24510000200"; S000 := 1 |} ].

(** The router: one path from node 1 to node 4 when [connected]. *)
Definition router (connected : bool) (u v : Z) : result (list edge_id) :=
  if connected && (u =? 1) && (v =? 4) then Ok [home_edge; mid_edge; work_edge]
  else Raise NetworkXNoPath.

(** A sampler that returns the first record of positive weight. *)
Definition first_positive (l : list flow_record) (_ : nat) : result flow_record :=
  match List.filter (fun r => 0 <? S000 r) l with
  | [] => Raise ValueError
  | r :: _ => Ok r
  end.

(** Sleep 8.5 hours, start work at 9:00. *)
Definition wfh_draws : draws :=
  {| home_pick := 0; uniform_sleep := 17 # 2; normal_work_start := 9;
     od_pick := 0; work_pick := 0; normal_departure := fun loc => loc;
     uniform_commute := 5 # 4 |}.

(** Sleep 7 hours, start work at 6:00: the sleep starts at 22:00. *)
Definition early_wfh_draws : draws :=
  {| home_pick := 0; uniform_sleep := 7; normal_work_start := 6;
     od_pick := 0; work_pick := 0; normal_departure := fun loc => loc;
     uniform_commute := 5 # 4 |}.

(** Sleep 7 hours, leave at the middle of the window, commute for
    1.25 hours. *)
Definition commuter_draws : draws :=
  {| home_pick := 0; uniform_sleep := 7; normal_work_start := 9;
     od_pick := 0; work_pick := 0; normal_departure := fun loc => loc;
     uniform_commute := 5 # 4 |}.

(** The 7:00-7:29 window. *)
Definition window : Q * Q := (7, 15 # 2)%Q.

Definition day : schedule := make_schedule window commuter_draws.

Definition town (connected : bool) (d : draws) (counts : acs_var -> Z)
    (tracts : list (string * nat)) (od : list flow_record) : world nat :=
  {| edges := [home_edge; mid_edge; work_edge];
     intersects := meets;
     tracts_geo := tracts;
     lodes_data := od;
     acs_data := [ {| GEOID := "24510000100"; workers := counts |} ];
     route_edges := router connected;
     sample_weighted := first_positive;
     rng := fun _ _ _ => d |}.

Definition both_tracts : list (string * nat) :=
  [ ("24510000100", O); ("24510000200", S O) ].

(** One worker of the given variable, none of the others. *)
Definition one_worker (var : acs_var) (v : acs_var) : Z :=
  match var, v with
  | B08006 a, B08006 b | B08132 a, B08132 b => if (a =? b)%nat then 1 else 0
  | _, _ => 0
  end.

Definition T0 : hourly := init_hourly [home_edge; mid_edge; work_edge].

(** Sleep 7 hours, leave at the middle of the window, commute for half
    an hour: from 7:15 to 7:45, with no full hour on the way to work. *)
Definition short_commute_draws : draws :=
  {| home_pick := 0; uniform_sleep := 7; normal_work_start := 9;
     od_pick := 0; work_pick := 0; normal_departure := fun loc => loc;
     uniform_commute := 1 # 2 |}.

Definition short_day : schedule := make_schedule window short_commute_draws.

(** The town with any router: whatever lines 218-219 do. *)
Definition town_with (router : Z -> Z -> result (list edge_id)) (d : draws)
    (counts : acs_var -> Z) (tracts : list (string * nat))
    (od : list flow_record) : world nat :=
  {| edges := [home_edge; mid_edge; work_edge];
     intersects := meets;
     tracts_geo := tracts;
     lodes_data := od;
     acs_data := [ {| GEOID := "24510000100"; workers := counts |} ];
     route_edges := router;
     sample_weighted := first_positive;
     rng := fun _ _ _ => d |}.

(** The hours 3 to 8: the value of the test of line 176 in binary64 for
    a start of work at 9.0 and a sleep of 5.4 hours. *)
Definition asleep_3_to_8 (hour : nat) : bool := (3 <=? hour)%nat && (hour <? 9)%nat.

End Town.

(** ** Frames, labels and the credits of an hour *)

(** The frames as [run_simulation] builds them: 24 frames, each with
    exactly the labels of the edges frame. *)
Definition well_formed (es : list edge_id) (T : hourly) : Prop :=
  length T = 24%nat /\
  forall (hour : nat) (g : frame), T !! hour = Some g -> dom g = list_to_set es.

(** How often an edge occurs in a list of edges. *)
Definition occurrences (e : edge_id) (l : list edge_id) : Z :=
  Z.of_nat (length (List.filter (fun x => bool_decide (x = e)) l)).

(** ** The day with the sleep test given *)

(** Lines 175-177 with the value of the test of line 176 at each hour
    given: [asleep hour] stands for
    [sleep_start_hour <= hour < (sleep_start_hour + sleep_duration) % 24]
    as the source evaluates it. *)
Definition wfh_day (asleep : nat -> bool) (home_edge : edge_id) (T : hourly) :
    result hourly :=
  for_each (fun hour T => if negb (asleep hour) then credit hour home_edge T else Ok T)
           (seq 0 24) T.

(** Lines 211-229: the body of the commuter's loop in an hour that is
    not slept. The hour is compared with the times of the schedule as
    they are. *)
Definition awake_hour {geometry : Type} (w : world geometry) (m : mode)
    (home_edge work_edge : edge_id) (sch : schedule) (hour : nat) (T : hourly) :
    result hourly :=
  let h := Time.of_hour hour in
  if Time.ltb h (departure_hour sch) || Time.leb (return_arrival sch) h
  then credit hour home_edge T
  else if Time.leb (arrival_hour sch) h && Time.ltb h (return_departure sch)
  then credit hour work_edge T
  else if Time.leb (departure_hour sch) h && Time.ltb h (arrival_hour sch)
  then
    if mode_eqb m walk || mode_eqb m other
    then route_credits w home_edge work_edge hour T
    else if mode_eqb m transit
    then let! T1 := credit hour home_edge T in credit hour work_edge T1
    else Ok T
  else Ok T.

(** Lines 204-229 with the value of [is_sleeping] at each hour given. *)
Definition commuter_day {geometry : Type} (w : world geometry)
    (asleep : nat -> bool) (m : mode) (home_edge work_edge : edge_id)
    (sch : schedule) (T : hourly) : result hourly :=
  for_each (fun hour T =>
              if asleep hour then Ok T
              else awake_hour w m home_edge work_edge sch hour T)
           (seq 0 24) T.

(** The edges that [awake_hour] credits, in the order of the credits;
    where lines 218-221 raise something else than [NetworkXNoPath] the
    hour raises too. *)
Definition awake_credits {geometry : Type} (w : world geometry) (m : mode)
    (home_edge work_edge : edge_id) (sch : schedule) (hour : nat) : list edge_id :=
  let h := Time.of_hour hour in
  if Time.ltb h (departure_hour sch) || Time.leb (return_arrival sch) h
  then [home_edge]
  else if Time.leb (arrival_hour sch) h && Time.ltb h (return_departure sch)
  then [work_edge]
  else if Time.leb (departure_hour sch) h && Time.ltb h (arrival_hour sch)
  then
    if mode_eqb m walk || mode_eqb m other
    then match route_edges w (edge_u home_edge) (edge_v work_edge) with
         | Ok path_edges => path_edges
         | Raise NetworkXNoPath => [home_edge]
         | Raise _ => []
         end
    else if mode_eqb m transit then [home_edge; work_edge]
    else []
  else [].

(** ** The names of the variables *)

(** [f'{n:03}'] *)
Definition format_03d (n : nat) : string :=
  if (n <? 10)%nat then "00" +:+ pretty n
  else if (n <? 100)%nat then "0" +:+ pretty n
  else pretty n.

(** The keys of [variables]: ['B08006_017E'] and [f'B08132_{var_num:03}E']. *)
Definition var_name (v : acs_var) : string :=
  match v with
  | B08006 n => "B08006_" +:+ format_03d n +:+ "E"
  | B08132 n => "B08132_" +:+ format_03d n +:+ "E"
  end.

(** The entries of the table for one mode. *)
Definition variables_of (m : mode) : list (acs_var * (mode * option (Q * Q))) :=
  List.filter (fun entry => mode_eqb (fst (snd entry)) m) define_acs_variables.

(** ** The animation *)

Definition CACHE_DIR : string := "cache".
Definition ANIMATION_FILE : string := "foot_traffic_animation_detailed.gif".

(** [f'{hour:02d}'] *)
Definition format_02d (n : nat) : string :=
  if (n <? 10)%nat then "0" +:+ pretty n else pretty n.

(** [f"{CACHE_DIR}/frame_{hour:02d}.png"] *)
Definition frame_file (hour : nat) : string :=
  CACHE_DIR +:+ "/frame_" +:+ format_02d hour +:+ ".png".

(** What a frame shows: the hour of its title and, for every row of the
    hour, the edge and the width of its line. *)
Record picture := {
  title_hour : nat;
  drawn : list (edge_id * Q)
}.

(** The files, each an image file with its frames (one for a PNG), and
    the number of [pyplot] figures that are open. *)
Record desk := {
  files : gmap string (list picture);
  figures : nat
}.

(** The outcome of the file operations. *)
Inductive io (A : Type) :=
| Done (a : A)
| FileNotFoundError.
Arguments Done {A} a.
Arguments FileNotFoundError {A}.

Definition io_bind {A B} (m : io A) (f : A -> io B) : io B :=
  match m with
  | Done a => f a
  | FileNotFoundError => FileNotFoundError
  end.

(** [np.clip(x, lo, hi)] *)
Definition clip (x lo hi : Q) : Q :=
  if Time.ltb x lo then lo else if Time.ltb hi x then hi else x.

(** [np.clip(foot_traffic / vmax * 5, 0.1, 5)] *)
Definition linewidth (vmax : Q) (count : Z) : Q :=
  clip (inject_Z count / vmax * 5)%Q (1 # 10)%Q 5%Q.

(** [foot_traffic_data[foot_traffic_data['hour'] == hour]] *)
Definition hour_data (data : list row) (hour : nat) : list row :=
  List.filter (fun r => (row_hour r =? hour)%nat) data.

Definition plot (vmax : Q) (hour : nat) (rows : list row) : picture :=
  {| title_hour := hour;
     drawn := (fun r => (row_edge r, linewidth vmax (row_count r))) <$> rows |}.

(** Lines 254-272: the body of the loop over the hours. A figure is
    opened first; an hour without rows goes on to the next with the
    figure left open; otherwise the frame is saved, the figure closed
    and the name of the file noted. *)
Definition render (vmax : Q) (data : list row) (st : desk * list string)
    (hour : nat) : desk * list string :=
  let d := fst st in
  let filenames := snd st in
  let opened := S (figures d) in
  match hour_data data hour with
  | [] => ({| files := files d; figures := opened |}, filenames)
  | rows =>
      let filename := frame_file hour in
      ({| files := <[filename := [plot vmax hour rows]]> (files d);
          figures := pred opened |},
       filenames ++ [filename])
  end.

(** Lines 276-278: [imageio.imread] of every frame file, in order. *)
Fixpoint read_frames (fs : gmap string (list picture)) (filenames : list string) :
    io (list picture) :=
  match filenames with
  | [] => Done []
  | filename :: rest =>
      match fs !! filename with
      | Some (image :: _) =>
          io_bind (read_frames fs rest) (fun images => Done (image :: images))
      | _ => FileNotFoundError
      end
  end.

(** Lines 280-281: [os.remove] of every frame file. *)
Fixpoint remove_files (filenames : list string) (fs : gmap string (list picture)) :
    io (gmap string (list picture)) :=
  match filenames with
  | [] => Done fs
  | filename :: rest =>
      match fs !! filename with
      | Some _ => remove_files rest (delete filename fs)
      | None => FileNotFoundError
      end
  end.

(** [create_animation]; [quantile99] is the 0.99 quantile of the
    [foot_traffic] column. *)
Definition create_animation (quantile99 : list Z -> Q) (data : list row)
    (d : desk) : io desk :=
  match data with
  | [] => Done d
  | _ =>
      let vmax := quantile99 (row_count <$> data) in
      let st := fold_left (render vmax data) (seq 0 24) (d, []) in
      let filenames := snd st in
      let opened := <[ANIMATION_FILE := []]> (files (fst st)) in
      io_bind (read_frames opened filenames) (fun images =>
      let written := <[ANIMATION_FILE := images]> opened in
      io_bind (remove_files filenames written) (fun fs =>
      Done {| files := fs; figures := figures (fst st) |}))
  end.

(** The hours of the day for which the table has rows, the frame of such
    an hour, and the files after saving it. *)
Definition has_rows (data : list row) (hour : nat) : bool :=
  match hour_data data hour with
  | [] => false
  | _ => true
  end.

Definition frame_hours (data : list row) : list nat := hours_where (has_rows data).

Definition shot (vmax : Q) (data : list row) (hour : nat) : picture :=
  plot vmax hour (hour_data data hour).

Definition save_frame (vmax : Q) (data : list row)
    (fs : gmap string (list picture)) (hour : nat) : gmap string (list picture) :=
  <[frame_file hour := [shot vmax data hour]]> fs.

(** * Properties *)

(** ** Comparisons of times *)

Lemma leb_le x y : Time.leb x y = true <-> (x <= y)%Q.
Proof. apply Qle_bool_iff. Qed.

Lemma ltb_lt x y : Time.ltb x y = true <-> (x < y)%Q.
Proof.
  unfold Time.ltb. rewrite negb_true_iff. split.
  - intros H. apply Qnot_le_lt. intros Hle.
    apply Qle_bool_iff in Hle. congruence.
  - intros H. destruct (Qle_bool y x) eqn:E; [|reflexivity].
    apply Qle_bool_iff in E. exfalso. eapply Qlt_not_le; eauto.
Qed.

Lemma leb_nle x y : Time.leb x y = false <-> (y < x)%Q.
Proof.
  rewrite <- ltb_lt. unfold Time.ltb, Time.leb.
  destruct (Qle_bool x y); simpl; split; congruence.
Qed.

Lemma ltb_nlt x y : Time.ltb x y = false <-> (y <= x)%Q.
Proof.
  rewrite <- leb_le. unfold Time.ltb, Time.leb.
  destruct (Qle_bool y x); simpl; split; congruence.
Qed.

(** ** Loops *)

Section ForEach.
Context {A S : Type} (body : A -> S -> result S).

(** A reflexive and transitive relation kept by every iteration is
    kept by the loop. *)
Lemma for_each_rel (R : S -> S -> Prop) (xs : list A) :
  (forall s, R s s) ->
  (forall s1 s2 s3, R s1 s2 -> R s2 s3 -> R s1 s3) ->
  (forall x s s', body x s = Ok s' -> R s s') ->
  forall s s', for_each body xs s = Ok s' -> R s s'.
Proof.
  intros Hrefl Htrans Hbody. induction xs as [|x xs IH]; intros s s' H.
  - simpl in H. injection H as <-. apply Hrefl.
  - simpl in H. destruct (body x s) as [s1|e] eqn:E; simpl in H; [|discriminate].
    eapply Htrans; [eapply Hbody; eassumption | apply IH; assumption].
Qed.

End ForEach.

(** An iteration that returns its state unchanged hands the same state
    to the rest of the loop. *)
Lemma for_each_continue {A S} (body : A -> S -> result S) (x : A) (xs : list A)
    (s : S) :
  body x s = Ok s -> for_each body (x :: xs) s = for_each body xs s.
Proof. intros H. simpl. rewrite H. reflexivity. Qed.

(** ** The table of variables *)

(** One work-from-home variable and 14 windows for each of 5 modes, no
    key twice, every commuter variable with its window. *)
Lemma define_acs_variables_shape :
  length define_acs_variables = 71%nat /\
  NoDup (fst <$> define_acs_variables) /\
  List.filter (fun entry : acs_var * (mode * option (Q * Q)) =>
                 match snd (snd entry) with
                 | None => true
                 | Some _ => false
                 end)
              define_acs_variables
  = [(B08006 17, (wfh, None))].
Proof.
  split; [reflexivity|]. split; [|reflexivity].
  apply (bool_decide_unpack _). vm_compute. exact I.
Qed.

(** ** Credits *)

(** A credit returns when the frame of the hour has the label. *)
Lemma credit_returns (hour : nat) (e : edge_id) (T : hourly) (g : frame) :
  T !! hour = Some g -> is_Some (g !! e) ->
  exists T' : hourly, credit hour e T = Ok T'.
Proof.
  intros Hg [c Hc]. unfold credit. rewrite Hg, Hc. eauto.
Qed.

Lemma credit_inv (hour : nat) (e : edge_id) (T T' : hourly) :
  credit hour e T = Ok T' ->
  exists (gdf : frame) c,
    T !! hour = Some gdf /\ gdf !! e = Some c /\
    T' = <[hour := <[e := c + 1]> gdf]> T.
Proof.
  unfold credit. intros H.
  destruct (T !! hour) as [gdf|] eqn:Eh; [|discriminate].
  destruct (gdf !! e) as [c|] eqn:Ee; [|discriminate].
  injection H as <-. eauto.
Qed.

(** A credit adds one to its own counter and changes no other. *)
Lemma foot_traffic_credit (hour : nat) (e : edge_id) (T T' : hourly) (h : nat) (e' : edge_id) :
  credit hour e T = Ok T' ->
  foot_traffic T' h e' =
  foot_traffic T h e' + (if bool_decide (h = hour /\ e' = e) then 1 else 0).
Proof.
  intros H. apply credit_inv in H as (gdf & c & Hh & He & ->).
  unfold foot_traffic.
  destruct (decide (h = hour)) as [->|Hne].
  - rewrite list_lookup_insert_eq by (eapply lookup_lt_Some; eauto).
    rewrite Hh. destruct (decide (e' = e)) as [->|Hne'].
    + rewrite lookup_insert_eq, He. simpl.
      rewrite bool_decide_eq_true_2 by done. reflexivity.
    + rewrite lookup_insert_ne by done.
      rewrite bool_decide_eq_false_2 by (intros [_ ?]; done). lia.
  - rewrite list_lookup_insert_ne by done.
    rewrite bool_decide_eq_false_2 by (intros [? _]; done).
    destruct (T !! h); lia.
Qed.

Lemma credit_length (hour : nat) (e : edge_id) (T T' : hourly) :
  credit hour e T = Ok T' -> length T' = length T.
Proof.
  intros H. apply credit_inv in H as (gdf & c & _ & _ & ->).
  apply length_insert.
Qed.

Lemma grows_refl (T : hourly) : grows T T.
Proof. split; [reflexivity | intros; lia]. Qed.

Lemma grows_trans (T1 T2 T3 : hourly) : grows T1 T2 -> grows T2 T3 -> grows T1 T3.
Proof.
  intros [L1 H1] [L2 H2]. split; [congruence|].
  intros hour e. specialize (H1 hour e). specialize (H2 hour e). lia.
Qed.

Lemma credit_grows (hour : nat) (e : edge_id) (T T' : hourly) : credit hour e T = Ok T' -> grows T T'.
Proof.
  intros H. split; [eapply credit_length; eauto|].
  intros h e'. rewrite (foot_traffic_credit _ _ _ _ h e' H).
  case_bool_decide; lia.
Qed.

Lemma for_each_grows {A} (body : A -> hourly -> result hourly) xs :
  (forall x T T', body x T = Ok T' -> grows T T') ->
  forall T T', for_each body xs T = Ok T' -> grows T T'.
Proof.
  intros H. apply for_each_rel; auto using grows_refl.
  intros; eapply grows_trans; eauto.
Qed.

(** ** Every loop of the simulation only adds *)

Section Growth.
Context {geometry : Type} (w : world geometry).

Lemma wfh_hour_grows (s d : Q) (home_edge : edge_id) (hour : nat) (T T' : hourly) :
  wfh_hour s d home_edge hour T = Ok T' -> grows T T'.
Proof.
  unfold wfh_hour. destruct (negb _).
  - apply credit_grows.
  - intros [= <-]. apply grows_refl.
Qed.

Lemma route_credits_grows (home_edge work_edge : edge_id) (hour : nat)
    (T T' : hourly) :
  route_credits w home_edge work_edge hour T = Ok T' -> grows T T'.
Proof.
  unfold route_credits.
  destruct (route_edges w (edge_u home_edge) (edge_v work_edge))
    as [path_edges|[]]; cbn [bind]; try discriminate.
  - destruct (for_each (credit hour) path_edges T) as [T1|[]] eqn:E;
      try discriminate.
    + intros [= <-]. revert E. apply for_each_grows.
      intros x; apply credit_grows.
    + apply credit_grows.
  - apply credit_grows.
Qed.

Lemma commuter_hour_grows (m : mode) (home_edge work_edge : edge_id) (sch : schedule) (hour : nat)
    (T T' : hourly) :
  commuter_hour w m home_edge work_edge sch hour T = Ok T' -> grows T T'.
Proof.
  unfold commuter_hour.
  repeat match goal with
         | |- context [if ?b then _ else _] => destruct b
         end;
    try (intros [= <-]; apply grows_refl);
    try apply credit_grows; try apply route_credits_grows.
  destruct (credit hour home_edge T) as [T1|] eqn:E; cbn [bind]; [|discriminate].
  intros H. eapply grows_trans; eapply credit_grows; eauto.
Qed.

Lemma simulate_worker_grows (m : mode) (tw : option (Q * Q)) (roads : list edge_id)
    (od : list flow_record) (d : draws) (T T' : hourly) :
  simulate_worker w m tw roads od d T = Ok T' -> grows T T'.
Proof.
  unfold simulate_worker.
  destruct (sample1 roads (home_pick d)) as [home_edge|]; cbn [bind]; [|discriminate].
  destruct (mode_eqb m wfh).
  - apply for_each_grows. intros hour; apply wfh_hour_grows.
  - destruct od as [|r od']; [intros [= <-]; apply grows_refl|].
    destruct (sample_weighted w (r :: od') (od_pick d)) as [o|]; cbn [bind];
      [|discriminate].
    destruct (assign_work w (w_geocode o) d) as [[work_edge|]|]; cbn [bind];
      try discriminate; [|intros [= <-]; apply grows_refl].
    destruct tw as [tw|]; [|discriminate].
    apply for_each_grows. intros hour; apply commuter_hour_grows.
Qed.

Lemma for_each_worker_grows (n : Z) (body : nat -> hourly -> result hourly) :
  (forall k T T', body k T = Ok T' -> grows T T') ->
  forall T T', for_each_worker n body T = Ok T' -> grows T T'.
Proof.
  intros H T T'. unfold for_each_worker. destruct (n <=? 0).
  - intros [= <-]. apply grows_refl.
  - by apply for_each_grows.
Qed.

Lemma simulate_variable_grows (i : nat) (home_tract : acs_row) (roads : list edge_id)
    (od : list flow_record) (entry : acs_var * (mode * option (Q * Q)))
    (T T' : hourly) :
  simulate_variable w i home_tract roads od entry T = Ok T' -> grows T T'.
Proof.
  unfold simulate_variable. apply for_each_worker_grows.
  intros k. apply simulate_worker_grows.
Qed.

Lemma simulate_tract_grows (ir : nat * acs_row) (T T' : hourly) :
  simulate_tract w ir T = Ok T' -> grows T T'.
Proof.
  unfold simulate_tract.
  destruct (assign_home_roads w (GEOID (snd ir))) as [[roads|]|]; cbn [bind];
    try discriminate; [|intros [= <-]; apply grows_refl].
  apply for_each_grows. intros entry; apply simulate_variable_grows.
Qed.

Lemma simulate_all_grows (T : hourly) :
  simulate_all w = Ok T -> grows (init_hourly (edges w)) T.
Proof.
  unfold simulate_all. apply for_each_grows.
  intros ir; apply simulate_tract_grows.
Qed.

End Growth.

(** ** The finalized table *)

Lemma finalize_rows (T : hourly) (r : row) :
  r ∈ finalize T -> 0 < row_count r /\ (row_hour r < length T)%nat.
Proof.
  unfold finalize. intros H.
  apply list_elem_of_join in H as (rows & Hr & Hrows).
  apply elem_of_lookup_imap in Hrows as (hour & gdf & -> & Hh).
  apply list_elem_of_fmap in Hr as ([e c] & -> & Hec).
  apply list_elem_of_In, filter_In in Hec as [_ Hpos].
  simpl in *. split; [lia|]. eapply lookup_lt_Some; eauto.
Qed.

(** The zeroed frames read 0 everywhere. *)
Lemma foot_traffic_init (es : list edge_id) (hour : nat) (e : edge_id) :
  foot_traffic (init_hourly es) hour e = 0.
Proof.
  unfold foot_traffic, init_hourly.
  destruct (((fun _ => zero_frame es) <$> seq 0 24) !! hour) as [g|] eqn:Eh;
    [|reflexivity].
  apply list_lookup_fmap_Some in Eh as (k & -> & _).
  unfold zero_frame.
  destruct (list_to_map ((fun e0 => (e0, 0)) <$> es) !! e) as [c|] eqn:Ee;
    [|reflexivity].
  apply elem_of_list_to_map_2, list_elem_of_fmap in Ee as (x & Hx & _).
  simpl. congruence.
Qed.

(** C7: a worker only adds to the counters: after any iteration of the
    loop over the workers that returns, every counter of every hour and
    edge is at least what it was, and so is every counter at the end of
    the run compared with the zeroed frames; every row of the table that
    [run_simulation] returns has a count above zero and an hour in
    0..23. *)
Theorem C7_counters_grow_rows_positive {geometry : Type} (w : world geometry) :
  (forall (m : mode) (tw : option (Q * Q)) (roads : list edge_id)
          (od : list flow_record) (d : draws) (T T' : hourly)
          (hour : nat) (e : edge_id),
      simulate_worker w m tw roads od d T = Ok T' ->
      foot_traffic T hour e <= foot_traffic T' hour e) /\
  (forall (T : hourly) (hour : nat) (e : edge_id),
      simulate_all w = Ok T -> 0 <= foot_traffic T hour e) /\
  (forall (rows : list row) (r : row),
      run_simulation w = Ok rows -> r ∈ rows ->
      0 < row_count r /\ (0 <= row_hour r <= 23)%nat).
Proof.
  split; [|split].
  - intros m tw roads od d T T' hour e H.
    apply simulate_worker_grows in H as [_ H]. apply H.
  - intros T hour e H. apply simulate_all_grows in H as [_ H].
    specialize (H hour e). rewrite foot_traffic_init in H. exact H.
  - intros rows r H Hr. unfold run_simulation in H.
    destruct (simulate_all w) as [T|] eqn:E; cbn [bind] in H; [|discriminate].
    injection H as <-. apply finalize_rows in Hr as [Hc Hh].
    apply simulate_all_grows in E as [L _].
    unfold init_hourly in L. rewrite length_fmap, length_seq in L. lia.
Qed.

Lemma C7_counters_grow_rows_positive_witness :
  let w := Town.town true Town.commuter_draws (Town.one_worker (B08132 67))
             Town.both_tracts Town.flows in
  match simulate_worker w walk (Some Town.window) [Town.home_edge] Town.flows
          Town.commuter_draws Town.T0 with
  | Ok T' => foot_traffic Town.T0 7 Town.home_edge <= foot_traffic T' 7 Town.home_edge
  | Raise _ => False
  end /\
  match simulate_all w with
  | Ok T => 0 <= foot_traffic T 8 Town.mid_edge
  | Raise _ => False
  end /\
  exists rows : list row,
    run_simulation w = Ok rows /\
    (Town.home_edge, 7%nat, 1%Z) ∈ rows /\
    0 < row_count (Town.home_edge, 7%nat, 1%Z) /\
    (0 <= row_hour (Town.home_edge, 7%nat, 1%Z) <= 23)%nat.
Proof.
  cbv zeta.
  destruct (C7_counters_grow_rows_positive
              (Town.town true Town.commuter_draws (Town.one_worker (B08132 67))
                 Town.both_tracts Town.flows)) as (Hstep & Hrun & Hrows).
  split; [|split].
  - assert (returns
              (simulate_worker
                 (Town.town true Town.commuter_draws (Town.one_worker (B08132 67))
                    Town.both_tracts Town.flows)
                 walk (Some Town.window) [Town.home_edge] Town.flows
                 Town.commuter_draws Town.T0) = true) as Hok
      by (vm_compute; reflexivity).
    destruct (simulate_worker _ walk _ _ _ _ _) as [T'|] eqn:E; [|discriminate].
    eapply Hstep. exact E.
  - assert (returns
              (simulate_all
                 (Town.town true Town.commuter_draws (Town.one_worker (B08132 67))
                    Town.both_tracts Town.flows)) = true) as Hok
      by (vm_compute; reflexivity).
    destruct (simulate_all _) as [T|] eqn:E; [|discriminate].
    apply Hrun. reflexivity.
  - eexists. split; [vm_compute; reflexivity|].
    assert ((Town.home_edge, 7%nat, 1%Z) ∈
            [(Town.home_edge, 7%nat, 1%Z); (Town.work_edge, 8%nat, 1%Z);
             (Town.home_edge, 8%nat, 1%Z); (Town.mid_edge, 8%nat, 1%Z);
             (Town.work_edge, 9%nat, 1%Z); (Town.work_edge, 10%nat, 1%Z);
             (Town.work_edge, 11%nat, 1%Z); (Town.work_edge, 12%nat, 1%Z);
             (Town.work_edge, 13%nat, 1%Z); (Town.work_edge, 14%nat, 1%Z);
             (Town.work_edge, 15%nat, 1%Z); (Town.work_edge, 16%nat, 1%Z);
             (Town.home_edge, 18%nat, 1%Z); (Town.home_edge, 19%nat, 1%Z);
             (Town.home_edge, 20%nat, 1%Z); (Town.home_edge, 21%nat, 1%Z);
             (Town.home_edge, 22%nat, 1%Z); (Town.home_edge, 23%nat, 1%Z)]) as Hin
      by apply list_elem_of_here.
    split; [exact Hin|].
    eapply Hrows; [vm_compute; reflexivity | exact Hin].
Defined.

(** ** The hour of a commuter, by state *)

(** What the loop body does in each state of [classify]. *)
Lemma commuter_hour_classify {geometry : Type} (w : world geometry) (m : mode)
    (home_edge work_edge : edge_id) (sch : schedule) (hour : nat) (T : hourly) :
  commuter_hour w m home_edge work_edge sch hour T =
  match classify sch hour with
  | asleep => Ok T
  | at_home => credit hour home_edge T
  | at_work => credit hour work_edge T
  | commuting_out =>
      if mode_eqb m walk || mode_eqb m other
      then route_credits w home_edge work_edge hour T
      else if mode_eqb m transit
      then let! T1 := credit hour home_edge T in credit hour work_edge T1
      else Ok T
  | commuting_back => Ok T
  end.
Proof.
  unfold commuter_hour, classify.
  repeat match goal with
         | |- context [if ?b then _ else _] =>
             lazymatch b with
             | context [mode_eqb] => fail
             | _ => destruct b
             end
         end; reflexivity.
Qed.

(** Each hour is in exactly one of the five states. *)
Lemma classify_exactly_one (sch : schedule) (hour : nat) :
  List.filter (state_eqb (classify sch hour)) states = [classify sch hour].
Proof. destruct (classify sch hour); reflexivity. Qed.

Lemma classify_wfh_exactly_one (s d : Q) (hour : nat) :
  List.filter (state_eqb (classify_wfh s d hour)) states = [classify_wfh s d hour]
  /\ (classify_wfh s d hour = asleep \/ classify_wfh s d hour = at_home).
Proof.
  unfold classify_wfh. destruct (wfh_sleeping s d hour); split; auto.
Qed.

(** No mode credits anything in the hours left over by the chain. *)
Lemma commuting_back_no_credit {geometry : Type} (w : world geometry) (m : mode)
    (home_edge work_edge : edge_id) (sch : schedule) (hour : nat) (T : hourly) :
  classify sch hour = commuting_back ->
  commuter_hour w m home_edge work_edge sch hour T = Ok T.
Proof. intros H. rewrite commuter_hour_classify, H. reflexivity. Qed.

(** C4: for the modes drive and carpool, an hour classified as commuting
    to work or as commuting back leaves the frames exactly as they were:
    no counter of any hour or edge is credited. *)
Theorem C4_drive_carpool_commute_no_credit {geometry : Type} (w : world geometry)
    (m : mode) (home_edge work_edge : edge_id) (sch : schedule) (hour : nat)
    (T : hourly) :
  m = drive \/ m = carpool ->
  classify sch hour = commuting_out \/ classify sch hour = commuting_back ->
  commuter_hour w m home_edge work_edge sch hour T = Ok T.
Proof.
  intros Hm Hc. rewrite commuter_hour_classify.
  destruct Hc as [-> | ->]; [|reflexivity].
  destruct Hm as [-> | ->]; reflexivity.
Qed.

Lemma C4_drive_carpool_commute_no_credit_witness :
  commuter_hour (Town.town true Town.commuter_draws (Town.one_worker (B08132 22))
                   Town.both_tracts Town.flows)
    drive Town.home_edge Town.work_edge Town.day 8 Town.T0 = Ok Town.T0 /\
  commuter_hour (Town.town true Town.commuter_draws (Town.one_worker (B08132 37))
                   Town.both_tracts Town.flows)
    carpool Town.home_edge Town.work_edge Town.day 17 Town.T0 = Ok Town.T0.
Proof.
  split.
  - apply C4_drive_carpool_commute_no_credit;
      [left; reflexivity | left; vm_compute; reflexivity].
  - apply C4_drive_carpool_commute_no_credit;
      [right; reflexivity | right; vm_compute; reflexivity].
Defined.

(** ** Resolution failures *)

Section Resolution.
Context {geometry : Type} (w : world geometry).

Lemma tract_geometry_not_found (geoid : string) :
  (forall r, r ∈ tracts_geo w -> fst r <> geoid) ->
  tract_geometry w geoid = Raise IndexError.
Proof.
  intros H. unfold tract_geometry.
  destruct (List.filter _ (tracts_geo w)) as [|r l] eqn:E; [reflexivity|].
  assert (In r (List.filter (fun r => String.eqb (fst r) geoid) (tracts_geo w)))
    as Hin by (rewrite E; left; reflexivity).
  apply filter_In in Hin as [Hin Heq].
  apply String.eqb_eq in Heq. apply list_elem_of_In in Hin.
  exfalso. eapply H; eauto.
Qed.

Lemma assign_home_roads_not_found (geoid : string) :
  (forall r, r ∈ tracts_geo w -> fst r <> geoid) ->
  assign_home_roads w geoid = Ok None.
Proof.
  intros H. unfold assign_home_roads.
  rewrite tract_geometry_not_found by exact H. reflexivity.
Qed.

Lemma assign_home_roads_empty (geoid : string) (g : geometry) :
  tract_geometry w geoid = Ok g -> roads_in w g = [] ->
  assign_home_roads w geoid = Ok None.
Proof.
  intros Hg Hr. unfold assign_home_roads. rewrite Hg. cbn [bind].
  rewrite Hr. reflexivity.
Qed.

Lemma assign_work_not_found (geoid : string) (d : draws) :
  (forall r, r ∈ tracts_geo w -> fst r <> geoid) ->
  assign_work w geoid d = Ok None.
Proof.
  intros H. unfold assign_work.
  rewrite tract_geometry_not_found by exact H. reflexivity.
Qed.

Lemma assign_work_empty (geoid : string) (g : geometry) (d : draws) :
  tract_geometry w geoid = Ok g -> roads_in w g = [] ->
  assign_work w geoid d = Ok None.
Proof.
  intros Hg Hr. unfold assign_work. rewrite Hg. cbn [bind].
  rewrite Hr. reflexivity.
Qed.

Lemma sample1_nonempty {A} (l : list A) (pick : nat) :
  l <> [] -> exists x, sample1 l pick = Ok x /\ x ∈ l.
Proof.
  intros Hl. unfold sample1.
  assert (pick mod length l < length l)%nat as Hlt.
  { apply Nat.mod_upper_bound. destruct l; [done | simpl; lia]. }
  apply lookup_lt_is_Some in Hlt as [x Hx]. rewrite Hx.
  exists x. split; [reflexivity|]. eapply list_elem_of_lookup_2; eauto.
Qed.

End Resolution.

(** C9: a tract row whose geometry is not found, or whose polygon meets
    no road edge, is skipped with the frames unchanged; a commuter whose
    home tract has no flow record, or whose sampled work tract has no
    geometry or meets no road edge, returns the frames unchanged. In
    each case the iteration returns normally, so the enclosing loop goes
    on with the next tract or worker. *)
Theorem C9_failed_resolution_no_credit {geometry : Type} (w : world geometry) :
  (forall (ir : nat * acs_row) (T : hourly),
      (forall r, r ∈ tracts_geo w -> fst r <> GEOID (snd ir)) \/
      (exists g, tract_geometry w (GEOID (snd ir)) = Ok g /\ roads_in w g = []) ->
      simulate_tract w ir T = Ok T) /\
  (forall (m : mode) (tw : option (Q * Q)) (roads : list edge_id)
          (od : list flow_record) (d : draws) (T : hourly),
      m <> wfh -> roads <> [] ->
      od = [] \/
      (exists o, sample_weighted w od (od_pick d) = Ok o /\
         ((forall r, r ∈ tracts_geo w -> fst r <> w_geocode o) \/
          (exists g, tract_geometry w (w_geocode o) = Ok g /\ roads_in w g = []))) ->
      simulate_worker w m tw roads od d T = Ok T).
Proof.
  split.
  - intros ir T H. unfold simulate_tract.
    assert (assign_home_roads w (GEOID (snd ir)) = Ok None) as ->.
    { destruct H as [H | (g & Hg & Hr)].
      - by apply assign_home_roads_not_found.
      - by eapply assign_home_roads_empty. }
    reflexivity.
  - intros m tw roads od d T Hm Hroads H. unfold simulate_worker.
    destruct (sample1_nonempty roads (home_pick d) Hroads) as (home_edge & -> & _).
    cbn [bind].
    assert (mode_eqb m wfh = false) as -> by (destruct m; done).
    destruct H as [-> | (o & Ho & H)]; [reflexivity|].
    destruct od as [|r od']; [reflexivity|].
    rewrite Ho. cbn [bind].
    assert (assign_work w (w_geocode o) d = Ok None) as ->.
    { destruct H as [H | (g & Hg & Hr)].
      - by apply assign_work_not_found.
      - by eapply assign_work_empty. }
    reflexivity.
Qed.

Lemma C9_failed_resolution_no_credit_witness :
  simulate_tract
    (Town.town true Town.commuter_draws (Town.one_worker (B08132 67)) [] Town.flows)
    (O, {| GEOID := "24510000100"; workers := Town.one_worker (B08132 67) |})
    Town.T0 = Ok Town.T0 /\
  simulate_worker
    (Town.town true Town.commuter_draws (Town.one_worker (B08132 67))
       [("24510000100", O)] Town.flows)
    walk (Some Town.window) [Town.home_edge] Town.flows Town.commuter_draws
    Town.T0 = Ok Town.T0.
Proof.
  split.
  - apply (proj1 (C9_failed_resolution_no_credit _)).
    left. intros r Hr. inversion Hr.
  - apply (proj2 (C9_failed_resolution_no_credit _)).
    + discriminate.
    + discriminate.
    + right. eexists. split; [vm_compute; reflexivity|].
      left. intros r Hr. apply list_elem_of_singleton in Hr as ->.
      simpl. discriminate.
Defined.

(** ** The loop over the workers of a variable *)

Lemma for_each_count (xs : list nat) (n : nat) :
  for_each (fun (_ : nat) (k : nat) => Ok (S k)) xs n = Ok (length xs + n)%nat.
Proof.
  revert n. induction xs as [|x xs IH]; intros n; [reflexivity|].
  simpl. rewrite IH. f_equal. lia.
Qed.

(** The body of the loop runs once per unit of a positive count, and
    not at all otherwise. *)
Lemma for_each_worker_count (num_workers : Z) :
  for_each_worker num_workers (fun (_ : nat) (k : nat) => Ok (S k)) O =
  Ok (Z.to_nat (Z.max num_workers 0)).
Proof.
  unfold for_each_worker. destruct (Z.leb_spec num_workers 0).
  - f_equal. lia.
  - rewrite for_each_count, length_seq. f_equal. lia.
Qed.

(** C10: for a variable whose worker count is zero or negative, the
    loop over the workers returns the frames unchanged without raising;
    the number of times the loop runs its body is max(count, 0), which
    is zero. *)
Theorem C10_nonpositive_count_no_workers {geometry : Type} (w : world geometry)
    (i : nat) (home_tract : acs_row) (roads : list edge_id)
    (od : list flow_record) (entry : acs_var * (mode * option (Q * Q)))
    (T : hourly) :
  workers home_tract (fst entry) <= 0 ->
  simulate_variable w i home_tract roads od entry T = Ok T /\
  for_each_worker (workers home_tract (fst entry))
    (fun (_ : nat) (k : nat) => Ok (S k)) O =
  Ok (Z.to_nat (Z.max (workers home_tract (fst entry)) 0)) /\
  Z.to_nat (Z.max (workers home_tract (fst entry)) 0) = O.
Proof.
  intros H. split; [|split].
  - unfold simulate_variable, for_each_worker.
    destruct (Z.leb_spec (workers home_tract (fst entry)) 0); [reflexivity | lia].
  - apply for_each_worker_count.
  - lia.
Qed.

Lemma C10_nonpositive_count_no_workers_witness :
  simulate_variable
    (Town.town true Town.commuter_draws (fun _ => -666666666)
       Town.both_tracts Town.flows)
    O {| GEOID := "24510000100"; workers := fun _ => -666666666 |}
    [Town.home_edge] Town.flows (B08132 67, (walk, Some Town.window))
    Town.T0 = Ok Town.T0 /\
  for_each_worker (-666666666) (fun (_ : nat) (k : nat) => Ok (S k)) O =
  Ok (Z.to_nat (Z.max (-666666666) 0)) /\
  Z.to_nat (Z.max (-666666666) 0) = O.
Proof.
  apply (C10_nonpositive_count_no_workers
           (Town.town true Town.commuter_draws (fun _ => -666666666)
              Town.both_tracts Town.flows)
           O {| GEOID := "24510000100"; workers := fun _ => -666666666 |}
           [Town.home_edge] Town.flows (B08132 67, (walk, Some Town.window))
           Town.T0).
  simpl. lia.
Defined.

(** ** The sleep of a work-from-home worker that passes midnight *)

(** C1: the test of line 176 compares the hour with the end of the sleep
    reduced modulo 24. For the worker that starts work at 6:00 and
    sleeps 7 hours the sleep starts at 22:00 and ends at 5:00 of the
    next day; the sleep interval holds the hours 22, 23, 0, 1, 2, 3, 4,
    and the commuter's test of lines 205-206 finds them, but the
    work-from-home test holds at no hour: the worker is at home, and
    never asleep, in all 24 hours. *)
Theorem C1_wfh_wrapped_sleep_never_asleep :
  let s := wfh_sleep_start (normal_work_start Town.early_wfh_draws)
                           (uniform_sleep Town.early_wfh_draws) in
  let d := uniform_sleep Town.early_wfh_draws in
  (s == 22)%Q /\ (d == 7)%Q /\
  hours_where (in_sleep_interval s d) = [0; 1; 2; 3; 4; 22; 23]%nat /\
  hours_where (is_sleeping s d) = [0; 1; 2; 3; 4; 22; 23]%nat /\
  hours_where (wfh_sleeping s d) = [] /\
  classify_wfh s d <$> seq 0 24 = replicate 24 at_home.
Proof. vm_compute. repeat split; reflexivity. Qed.

(** C2: the worker that starts work at 9:00 and sleeps 8.5 hours goes to
    sleep at 23:30; the hours 0..7 lie in the sleep interval and 16
    hours lie outside it, yet the day of the worker credits the home
    edge in each of the 24 hours. No other edge is credited. *)
Theorem C2_wfh_wrapped_sleep_credits_all_day :
  let w := Town.town true Town.wfh_draws (Town.one_worker (B08006 17))
             Town.both_tracts Town.flows in
  let s := wfh_sleep_start (normal_work_start Town.wfh_draws)
                           (uniform_sleep Town.wfh_draws) in
  let d := uniform_sleep Town.wfh_draws in
  (s == 47 # 2)%Q /\
  hours_where (in_sleep_interval s d) = [0; 1; 2; 3; 4; 5; 6; 7]%nat /\
  length (hours_where (fun hour => negb (in_sleep_interval s d hour))) = 16%nat /\
  result_map
    (fun T' : hourly =>
       (day_counts T' Town.home_edge, day_counts T' Town.mid_edge,
        day_counts T' Town.work_edge))
    (simulate_worker w wfh None [Town.home_edge] Town.flows Town.wfh_draws Town.T0)
  = Ok (replicate 24 1, replicate 24 0, replicate 24 0).
Proof. cbv zeta. repeat split; vm_compute; reflexivity. Qed.

(** ** The return commute *)

(** C3: a walker who leaves at 7:15 and commutes for half an hour
    arrives at 7:45, leaves work at 15:45 and is home at 16:15. Asleep
    until 6:15, the worker is at home at the hour 7, at work in the
    hours 8 to 15 and on the way back at the hour 16; no hour of
    [range(24)] falls on the way to work, so that lines 216-223 are not
    reached and the router is never asked, whatever it would do. The
    hour 16 falls in the return commute and credits nothing, for the
    mode walk and for the mode other: no edge of any route is credited,
    and the table of the whole run has a row for every other waking
    hour and none for the hour 16. *)
Theorem C3_walk_return_commute_uncredited (router : Z -> Z -> result (list edge_id)) :
  let w := Town.town_with router Town.short_commute_draws
             (Town.one_worker (B08132 67)) Town.both_tracts Town.flows in
  classify Town.short_day <$> seq 0 24
  = replicate 7 asleep ++ [at_home] ++ replicate 8 at_work
    ++ [commuting_back] ++ replicate 7 at_home /\
  Time.leb (return_departure Town.short_day) (Time.of_hour 16) = true /\
  Time.ltb (Time.of_hour 16) (return_arrival Town.short_day) = true /\
  commuter_hour w walk Town.home_edge Town.work_edge Town.short_day 16 Town.T0
  = Ok Town.T0 /\
  commuter_hour w other Town.home_edge Town.work_edge Town.short_day 16 Town.T0
  = Ok Town.T0 /\
  exists rows : list row,
    run_simulation w = Ok rows /\
    row_hour <$> rows
    = [7; 8; 9; 10; 11; 12; 13; 14; 15; 17; 18; 19; 20; 21; 22; 23]%nat /\
    List.filter (fun r => (row_hour r =? 15)%nat) rows
    = [(Town.work_edge, 15%nat, 1)] /\
    List.filter (fun r => (row_hour r =? 16)%nat) rows = [] /\
    List.filter (fun r => (row_hour r =? 17)%nat) rows
    = [(Town.home_edge, 17%nat, 1)].
Proof.
  cbv zeta.
  repeat match goal with
         | |- _ /\ _ => split
         | |- commuter_hour _ _ _ _ _ _ _ = Ok _ =>
             apply commuting_back_no_credit; vm_compute; reflexivity
         | |- exists _, _ => eexists
         | |- _ = _ => vm_compute; reflexivity
         end.
Qed.

(** C5: the same walker, whatever the router does where the network has
    no path between the two nodes. The hour 16 is a commuting hour, on
    the way back, and the home edge is not credited in it: the hour
    returns the frames unchanged, and after the whole run the home edge
    counts one in the hours 7 and 17 to 23 and zero in the hour 16, as
    do the two other edges. The fallback of line 223 stands in the
    branch of the way to work only. *)
Theorem C5_no_path_return_commute_uncredited (router : Z -> Z -> result (list edge_id)) :
  let w := Town.town_with router Town.short_commute_draws
             (Town.one_worker (B08132 67)) Town.both_tracts Town.flows in
  classify Town.short_day 16 = commuting_back /\
  hours_where (fun hour => state_eqb (classify Town.short_day hour) commuting_out) = [] /\
  commuter_hour w walk Town.home_edge Town.work_edge Town.short_day 16 Town.T0
  = Ok Town.T0 /\
  foot_traffic Town.T0 16 Town.home_edge = 0 /\
  result_map
    (fun T' : hourly =>
       (day_counts T' Town.home_edge,
        (foot_traffic T' 16 Town.home_edge, foot_traffic T' 16 Town.mid_edge,
         foot_traffic T' 16 Town.work_edge)))
    (simulate_all w)
  = Ok (replicate 7 0 ++ [1] ++ replicate 8 0 ++ [0] ++ replicate 7 1, (0, 0, 0)).
Proof.
  cbv zeta.
  repeat match goal with
         | |- _ /\ _ => split
         | |- commuter_hour _ _ _ _ _ _ _ = Ok _ =>
             apply commuting_back_no_credit; vm_compute; reflexivity
         | |- _ = _ => vm_compute; reflexivity
         end.
Qed.

(** C6: a transit rider with the same day. At the hour 8, on the way to
    work, the home edge and the work edge are credited once each; at
    the hour 17, on the way back, neither is: the frames are returned
    unchanged and the table of the whole run has no row for that
    hour. *)
Theorem C6_transit_return_commute_uncredited :
  let w := Town.town true Town.commuter_draws (Town.one_worker (B08132 52))
             Town.both_tracts Town.flows in
  classify Town.day 17 = commuting_back /\
  commuter_hour w transit Town.home_edge Town.work_edge Town.day 17 Town.T0
  = Ok Town.T0 /\
  exists rows : list row,
    run_simulation w = Ok rows /\
    List.filter (fun r => (row_hour r =? 8)%nat) rows
    = [(Town.work_edge, 8%nat, 1); (Town.home_edge, 8%nat, 1)] /\
    List.filter (fun r => (row_hour r =? 17)%nat) rows = [].
Proof.
  cbv zeta.
  repeat match goal with
         | |- _ /\ _ => split
         | |- commuter_hour _ _ _ _ _ _ _ = Ok _ =>
             apply commuting_back_no_credit; vm_compute; reflexivity
         | |- exists _, _ => eexists
         | |- _ = _ => vm_compute; reflexivity
         end.
Qed.

(** ** The way to work *)

(** The number of times an edge occurs on a route. *)
Lemma for_each_credit_path (hour : nat) (path_edges : list edge_id) :
  forall (T T' : hourly) (h : nat) (e : edge_id),
    for_each (credit hour) path_edges T = Ok T' ->
    foot_traffic T' h e =
    foot_traffic T h e +
    (if bool_decide (h = hour)
     then Z.of_nat (length (List.filter (fun x => bool_decide (x = e)) path_edges))
     else 0).
Proof.
  induction path_edges as [|x xs IH]; intros T T' h e H.
  - simpl in H. injection H as <-. simpl. case_bool_decide; lia.
  - simpl in H. destruct (credit hour x T) as [T1|] eqn:E; cbn [bind] in H;
      [|discriminate].
    rewrite (IH _ _ h e H), (foot_traffic_credit _ _ _ _ h e E). simpl.
    destruct (decide (h = hour)) as [->|Hh]; destruct (decide (x = e)) as [->|Hx];
      repeat first [ rewrite bool_decide_eq_true_2 by intuition congruence
                   | rewrite bool_decide_eq_false_2 by intuition congruence ];
      simpl; lia.
Qed.

(** The credits of a route succeed when the frame of the hour has a
    label for each of its edges. *)
Lemma for_each_credit_returns (hour : nat) (path_edges : list edge_id) :
  forall (T : hourly) (g : frame),
    T !! hour = Some g ->
    (forall e, e ∈ path_edges -> is_Some (g !! e)) ->
    exists T' : hourly, for_each (credit hour) path_edges T = Ok T'.
Proof.
  induction path_edges as [|x xs IH]; intros T g Hg Hin; [by eexists|].
  simpl. destruct (Hin x) as [c Hc]; [apply list_elem_of_here|].
  assert (credit hour x T = Ok (<[hour := <[x := c + 1]> g]> T)) as E.
  { unfold credit. rewrite Hg, Hc. reflexivity. }
  rewrite E. cbn [bind].
  eapply (IH _ (<[x := c + 1]> g)).
  - apply list_lookup_insert_eq. eapply lookup_lt_Some; eauto.
  - intros e He. destruct (decide (e = x)) as [->|Hne].
    + rewrite lookup_insert_eq. eauto.
    + rewrite lookup_insert_ne by done. apply Hin. by apply list_elem_of_further.
Qed.

Section WayToWork.
Context {geometry : Type} (w : world geometry).
Context (home_edge work_edge : edge_id) (sch : schedule) (hour : nat).
Hypothesis Hout : classify sch hour = commuting_out.

(** Walk and other: every edge of the route that the router returns
    is credited once per occurrence, in the frame of the hour only. *)
Lemma walk_way_to_work_credits_route (m : mode) (path_edges : list edge_id)
    (T T' : hourly) (h : nat) (e : edge_id) :
  m = walk \/ m = other ->
  route_edges w (edge_u home_edge) (edge_v work_edge) = Ok path_edges ->
  commuter_hour w m home_edge work_edge sch hour T = Ok T' ->
  foot_traffic T' h e =
  foot_traffic T h e +
  (if bool_decide (h = hour)
   then Z.of_nat (length (List.filter (fun x => bool_decide (x = e)) path_edges))
   else 0).
Proof.
  intros Hm Hr. rewrite commuter_hour_classify, Hout.
  assert (mode_eqb m walk || mode_eqb m other = true) as ->
    by (destruct Hm as [-> | ->]; reflexivity).
  unfold route_credits. rewrite Hr. cbn [bind].
  destruct (for_each (credit hour) path_edges T) as [T1|[]] eqn:E;
    try discriminate.
  - intros [= <-]. by apply for_each_credit_path.
  - exfalso. clear -E. revert T E.
    induction path_edges as [|x xs IH]; intros T E; [discriminate|].
    simpl in E. unfold credit at 1 in E.
    destruct (T !! hour) as [g|]; [|discriminate].
    destruct (g !! x); [|discriminate]. cbn [bind] in E. eauto.
Qed.

(** Walk and other, no path: the hour is the single credit of the
    home edge. *)
Lemma walk_way_to_work_no_path (m : mode) (T : hourly) :
  m = walk \/ m = other ->
  route_edges w (edge_u home_edge) (edge_v work_edge) = Raise NetworkXNoPath ->
  commuter_hour w m home_edge work_edge sch hour T = credit hour home_edge T.
Proof.
  intros Hm Hr. rewrite commuter_hour_classify, Hout.
  assert (mode_eqb m walk || mode_eqb m other = true) as ->
    by (destruct Hm as [-> | ->]; reflexivity).
  unfold route_credits. rewrite Hr. reflexivity.
Qed.

(** Transit: one credit of the home edge and one of the work edge. *)
Lemma transit_way_to_work (T T' : hourly) (h : nat) (e : edge_id) :
  commuter_hour w transit home_edge work_edge sch hour T = Ok T' ->
  foot_traffic T' h e =
  foot_traffic T h e +
  (if bool_decide (h = hour /\ e = home_edge) then 1 else 0) +
  (if bool_decide (h = hour /\ e = work_edge) then 1 else 0).
Proof.
  rewrite commuter_hour_classify, Hout. simpl.
  destruct (credit hour home_edge T) as [T1|] eqn:E; cbn [bind]; [|discriminate].
  intros H.
  rewrite (foot_traffic_credit _ _ _ _ h e H), (foot_traffic_credit _ _ _ _ h e E).
  reflexivity.
Qed.

End WayToWork.

(** ** The states as intervals of the day *)

Ltac time_props :=
  repeat match goal with
         | H : _ && _ = true |- _ => apply andb_true_iff in H as [? ?]
         | H : _ || _ = false |- _ => apply orb_false_iff in H as [? ?]
         | H : Time.leb _ _ = true |- _ => apply leb_le in H
         | H : Time.ltb _ _ = true |- _ => apply ltb_lt in H
         | H : Time.leb _ _ = false |- _ => apply leb_nle in H
         | H : Time.ltb _ _ = false |- _ => apply ltb_nlt in H
         end.

(** The hours left over by the chain are those of the return commute:
    awake, and from [return_departure] up to [return_arrival]. *)
Lemma classify_commuting_back (sch : schedule) (hour : nat) :
  classify sch hour = commuting_back ->
  is_sleeping (sleep_start_hour sch) (sleep_duration sch) hour = false /\
  (return_departure sch <= Time.of_hour hour)%Q /\
  (Time.of_hour hour < return_arrival sch)%Q.
Proof.
  unfold classify.
  destruct (is_sleeping _ _ hour); [discriminate|].
  destruct (Time.ltb (Time.of_hour hour) (departure_hour sch)) eqn:E1;
    [discriminate|].
  destruct (Time.leb (return_arrival sch) (Time.of_hour hour)) eqn:E2;
    [discriminate|].
  destruct (Time.leb (arrival_hour sch) (Time.of_hour hour)) eqn:E3;
    destruct (Time.ltb (Time.of_hour hour) (return_departure sch)) eqn:E4;
    destruct (Time.leb (departure_hour sch) (Time.of_hour hour)) eqn:E5;
    destruct (Time.ltb (Time.of_hour hour) (arrival_hour sch)) eqn:E6;
    simpl; try discriminate; intros _; time_props;
    (split; [reflexivity|]); split; lra.
Qed.

(** Conversely, for a schedule in which the worker leaves before
    arriving and works before returning, an awake hour of the return
    commute is left over by the chain. *)
Lemma return_commute_classified (sch : schedule) (hour : nat) :
  (departure_hour sch <= arrival_hour sch)%Q ->
  (arrival_hour sch <= return_departure sch)%Q ->
  is_sleeping (sleep_start_hour sch) (sleep_duration sch) hour = false ->
  (return_departure sch <= Time.of_hour hour)%Q ->
  (Time.of_hour hour < return_arrival sch)%Q ->
  classify sch hour = commuting_back.
Proof.
  intros H1 H2 Hs H3 H4. unfold classify. rewrite Hs.
  assert (Time.ltb (Time.of_hour hour) (departure_hour sch) = false) as ->
    by (apply ltb_nlt; lra).
  assert (Time.leb (return_arrival sch) (Time.of_hour hour) = false) as ->
    by (apply leb_nle; lra).
  assert (Time.ltb (Time.of_hour hour) (return_departure sch) = false) as ->
    by (apply ltb_nlt; lra).
  assert (Time.ltb (Time.of_hour hour) (arrival_hour sch) = false) as ->
    by (apply ltb_nlt; lra).
  rewrite !andb_false_r. reflexivity.
Qed.

(** The way to work: awake, from [departure_hour] up to
    [arrival_hour]. *)
Lemma classify_commuting_out (sch : schedule) (hour : nat) :
  classify sch hour = commuting_out ->
  is_sleeping (sleep_start_hour sch) (sleep_duration sch) hour = false /\
  (departure_hour sch <= Time.of_hour hour)%Q /\
  (Time.of_hour hour < arrival_hour sch)%Q.
Proof.
  unfold classify.
  destruct (is_sleeping _ _ hour); [discriminate|].
  destruct (_ || _); [discriminate|].
  destruct (Time.leb (arrival_hour sch) _ && _); [discriminate|].
  destruct (Time.leb (departure_hour sch) (Time.of_hour hour)) eqn:E5;
    destruct (Time.ltb (Time.of_hour hour) (arrival_hour sch)) eqn:E6;
    simpl; try discriminate; intros _; time_props; auto.
Qed.

(** The schedule of lines 195-198 is ordered when the commute takes
    time. *)
Lemma make_schedule_ordered (tw : Q * Q) (d : draws) :
  (0 <= uniform_commute d)%Q ->
  let sch := make_schedule tw d in
  (departure_hour sch <= arrival_hour sch)%Q /\
  (arrival_hour sch <= return_departure sch)%Q /\
  (return_departure sch <= return_arrival sch)%Q.
Proof. intros H. simpl. repeat split; lra. Qed.

(** ** The sleep test of the commuter *)

Lemma Qfloor_unit (y : Q) : (1 <= y)%Q -> (y < 2)%Q -> Qfloor y = 1.
Proof.
  intros H1 H2.
  pose proof (Qfloor_le y) as Hlo. pose proof (Qlt_floor y) as Hhi.
  assert (Qfloor y < 2) as Hlt.
  { rewrite Zlt_Qlt. eapply Qle_lt_trans; [exact Hlo | exact H2]. }
  assert (1 < Qfloor y + 1) as Hgt.
  { rewrite Zlt_Qlt. eapply Qle_lt_trans; [exact H1 | exact Hhi]. }
  lia.
Qed.

Lemma fmod_second_day (x : Q) :
  (24 <= x)%Q -> (x < 48)%Q -> (Time.fmod x 24 == x - 24)%Q.
Proof.
  intros H1 H2. unfold Time.fmod.
  rewrite (Qfloor_unit (x / 24)).
  - unfold inject_Z. lra.
  - apply Qle_shift_div_l; lra.
  - apply Qlt_shift_div_r; lra.
Qed.

(** For a sleep that starts within the day and ends before the end of
    the next day, the commuter's test of lines 205-206, in exact
    arithmetic, holds exactly on the hours of the sleep interval, also
    when it passes midnight. *)
Lemma is_sleeping_wraps (s d : Q) (hour : nat) :
  (0 <= s)%Q -> (s < 24)%Q -> (s + d < 48)%Q ->
  is_sleeping s d hour = in_sleep_interval s d hour.
Proof.
  intros Hs0 Hs24 Hend. unfold is_sleeping, in_sleep_interval. f_equal.
  assert (0 <= Time.of_hour hour)%Q as Hh.
  { unfold Time.of_hour. change 0%Q with (inject_Z 0).
    rewrite <- Zle_Qle. lia. }
  destruct (Qlt_le_dec 24 (s + d)) as [Hwrap | Hday].
  - pose proof (fmod_second_day (s + d) ltac:(lra) Hend) as Hmod.
    apply eq_true_iff_eq.
    rewrite !andb_true_iff, !ltb_lt, leb_le. split.
    + intros [_ H]. split; lra.
    + intros [_ H]. split; lra.
  - assert (Time.ltb 24 (s + d) = false) as -> by (apply ltb_nlt; lra).
    assert (Time.ltb (Time.of_hour hour + 24) (s + d) = false) as ->
      by (apply ltb_nlt; lra).
    rewrite andb_false_r. reflexivity.
Qed.

(** ** The sleep test of the work-from-home worker *)

Lemma Qfloor_zero (y : Q) : (0 <= y)%Q -> (y < 1)%Q -> Qfloor y = 0.
Proof.
  intros H1 H2.
  pose proof (Qfloor_le y) as Hlo. pose proof (Qlt_floor y) as Hhi.
  assert (Qfloor y < 1) as Hlt.
  { rewrite Zlt_Qlt. eapply Qle_lt_trans; [exact Hlo | exact H2]. }
  assert (0 < Qfloor y + 1) as Hgt.
  { rewrite Zlt_Qlt. eapply Qle_lt_trans; [exact H1 | exact Hhi]. }
  lia.
Qed.

Lemma fmod_same_day (x : Q) :
  (0 <= x)%Q -> (x < 24)%Q -> (Time.fmod x 24 == x)%Q.
Proof.
  intros H1 H2. unfold Time.fmod.
  rewrite (Qfloor_zero (x / 24)).
  - unfold inject_Z. lra.
  - apply Qle_shift_div_l; lra.
  - apply Qlt_shift_div_r; lra.
Qed.

(** A sleep that ends before midnight is tested correctly, in exact
    arithmetic. *)
Lemma wfh_sleeping_same_day (s d : Q) (hour : nat) :
  (0 <= s)%Q -> (0 <= d)%Q -> (s + d < 24)%Q -> (hour < 24)%nat ->
  wfh_sleeping s d hour = in_sleep_interval s d hour.
Proof.
  intros Hs Hd Hend Hh. unfold wfh_sleeping, in_sleep_interval.
  pose proof (fmod_same_day (s + d) ltac:(lra) Hend) as Hmod.
  assert (Time.ltb (Time.of_hour hour + 24) (s + d) = false) as ->.
  { apply ltb_nlt. assert (0 <= Time.of_hour hour)%Q; [|lra].
    unfold Time.of_hour. change 0%Q with (inject_Z 0).
    rewrite <- Zle_Qle. lia. }
  rewrite andb_false_r, orb_false_r.
  apply eq_true_iff_eq. rewrite !andb_true_iff, !ltb_lt, leb_le.
  split; intros [? ?]; split; lra.
Qed.

(** A sleep that reaches midnight is lost: the test of line 176, in
    exact arithmetic, holds at no hour. *)
Lemma wfh_sleeping_past_midnight (s d : Q) (hour : nat) :
  (0 <= s)%Q -> (s < 24)%Q -> (d < 24)%Q -> (24 <= s + d)%Q ->
  wfh_sleeping s d hour = false.
Proof.
  intros Hs0 Hs24 Hd Hend. unfold wfh_sleeping.
  pose proof (fmod_second_day (s + d) Hend ltac:(lra)) as Hmod.
  destruct (Time.leb s (Time.of_hour hour)) eqn:E1; [|reflexivity].
  simpl. apply ltb_nlt. apply leb_le in E1. lra.
Qed.

(** ** The day of a work-from-home worker *)

(** Over any list of hours, the loop of lines 175-177 credits the home
    edge once per listed hour at which the test of line 176 fails, and
    no other edge. *)
Lemma wfh_day_credits (s d : Q) (home_edge : edge_id) (hours : list nat) :
  forall (T T' : hourly) (h : nat) (e : edge_id),
    for_each (wfh_hour s d home_edge) hours T = Ok T' ->
    foot_traffic T' h e =
    foot_traffic T h e +
    (if bool_decide (e = home_edge) && negb (wfh_sleeping s d h)
     then Z.of_nat (count_occ Nat.eq_dec hours h)
     else 0).
Proof.
  induction hours as [|x xs IH]; intros T T' h e H.
  - simpl in H. injection H as <-. simpl. destruct (_ && _); lia.
  - simpl in H. destruct (wfh_hour s d home_edge x T) as [T1|] eqn:E;
      cbn [bind] in H; [|discriminate].
    rewrite (IH _ _ h e H). clear IH H. unfold wfh_hour in E.
    destruct (Nat.eq_dec x h) as [->|Hne].
    + rewrite count_occ_cons_eq by reflexivity.
      destruct (wfh_sleeping s d h); simpl in E.
      * injection E as <-. rewrite andb_false_r. lia.
      * rewrite (foot_traffic_credit _ _ _ _ h e E), andb_true_r.
        destruct (decide (e = home_edge)) as [->|He].
        -- rewrite !bool_decide_eq_true_2 by auto. lia.
        -- rewrite !bool_decide_eq_false_2 by intuition congruence. lia.
    + rewrite count_occ_cons_neq by exact Hne.
      destruct (negb (wfh_sleeping s d x)).
      * rewrite (foot_traffic_credit _ _ _ _ h e E).
        rewrite (bool_decide_eq_false_2 (h = x /\ e = home_edge))
          by intuition congruence.
        lia.
      * injection E as <-. lia.
Qed.

Lemma count_occ_range (h : nat) :
  (h < 24)%nat -> count_occ Nat.eq_dec (seq 0 24) h = 1%nat.
Proof.
  intros Hh.
  pose proof (proj1 (NoDup_count_occ Nat.eq_dec (seq 0 24)) (seq_NoDup 24 0) h).
  pose proof (proj1 (count_occ_In Nat.eq_dec (seq 0 24) h)
                (proj2 (in_seq 24 0 h) ltac:(lia))).
  lia.
Qed.

(** A work-from-home worker credits the sampled home edge once in each
    hour at which the test of line 176 fails, and never another edge. *)
Lemma wfh_worker_credits {geometry : Type} (w : world geometry)
    (tw : option (Q * Q)) (roads : list edge_id) (od : list flow_record)
    (d : draws) (T T' : hourly) :
  simulate_worker w wfh tw roads od d T = Ok T' ->
  exists home_edge : edge_id,
    sample1 roads (home_pick d) = Ok home_edge /\
    forall (h : nat) (e : edge_id),
      (h < 24)%nat ->
      foot_traffic T' h e =
      foot_traffic T h e +
      (if bool_decide (e = home_edge) &&
          negb (wfh_sleeping (wfh_sleep_start (normal_work_start d) (uniform_sleep d))
                             (uniform_sleep d) h)
       then 1 else 0).
Proof.
  unfold simulate_worker.
  destruct (sample1 roads (home_pick d)) as [home_edge|]; cbn [bind mode_eqb];
    [|discriminate].
  intros H. exists home_edge. split; [reflexivity|]. intros h e Hh.
  rewrite (wfh_day_credits _ _ _ _ _ _ h e H), count_occ_range by exact Hh.
  reflexivity.
Qed.

(** * Beyond the hour: the day, the frames and the run *)

(** ** Python's modulo and the start of the sleep *)

Lemma fmod_range (x : Q) : (0 <= Time.fmod x 24)%Q /\ (Time.fmod x 24 < 24)%Q.
Proof.
  unfold Time.fmod.
  pose proof (Qfloor_le (x / 24)) as H1. pose proof (Qlt_floor (x / 24)) as H2.
  rewrite inject_Z_plus in H2. change (inject_Z 1) with 1%Q in H2.
  assert (x == 24 * (x / 24))%Q as E by field.
  set (y := (x / 24)%Q) in *. set (q := inject_Z (Qfloor y)) in *.
  split; lra.
Qed.

(** X1: whatever is drawn, the sleep of a commuter (line 201) and of a
    work-from-home worker (line 174) starts at a time of the day, from
    0 up to but not including 24. *)
Theorem X1_sleep_start_within_day (tw : Q * Q) (d : draws) :
  ((0 <= sleep_start_hour (make_schedule tw d))%Q /\
   (sleep_start_hour (make_schedule tw d) < 24)%Q) /\
  ((0 <= wfh_sleep_start (normal_work_start d) (uniform_sleep d))%Q /\
   (wfh_sleep_start (normal_work_start d) (uniform_sleep d) < 24)%Q).
Proof. split; apply fmod_range. Qed.

(** ** Loops that keep an invariant *)

Section ForEachInvariant.
Context {A S : Type} (body : A -> S -> result S) (P : S -> Prop).

Lemma for_each_inv (xs : list A) :
  (forall x s s', x ∈ xs -> P s -> body x s = Ok s' -> P s') ->
  forall s s', P s -> for_each body xs s = Ok s' -> P s'.
Proof.
  induction xs as [|x xs IH]; intros Hbody s s' Hs H.
  - simpl in H. injection H as <-. exact Hs.
  - simpl in H. destruct (body x s) as [s1|] eqn:E; cbn [bind] in H; [|discriminate].
    eapply IH; [|eapply Hbody; eauto using list_elem_of_here|exact H].
    intros y t t' Hy. apply Hbody. by apply list_elem_of_further.
Qed.

Lemma for_each_total (xs : list A) :
  (forall x s, x ∈ xs -> P s -> exists s', body x s = Ok s' /\ P s') ->
  forall s, P s -> exists s', for_each body xs s = Ok s' /\ P s'.
Proof.
  induction xs as [|x xs IH]; intros Hbody s Hs.
  - exists s. split; [reflexivity | exact Hs].
  - destruct (Hbody x s (list_elem_of_here _ _) Hs) as (s1 & E & Hs1).
    simpl. rewrite E. cbn [bind]. apply IH; [|exact Hs1].
    intros y t Hy. apply Hbody. by apply list_elem_of_further.
Qed.

End ForEachInvariant.

(** The first exception ends the loop. *)
Lemma for_each_raise {A S} (body : A -> S -> result S) (x : A) (xs : list A)
    (s : S) (e : exn) :
  body x s = Raise e -> for_each body (x :: xs) s = Raise e.
Proof. intros H. simpl. rewrite H. reflexivity. Qed.

(** ** The labels of the frames *)

Lemma init_hourly_well_formed (es : list edge_id) : well_formed es (init_hourly es).
Proof.
  split.
  - unfold init_hourly. rewrite length_fmap, length_seq. reflexivity.
  - intros hour g Hg. unfold init_hourly in Hg.
    apply list_lookup_fmap_Some in Hg as (k & -> & _).
    unfold zero_frame. rewrite dom_list_to_map_L. f_equal.
    rewrite <- list_fmap_compose. apply list_fmap_id.
Qed.

Lemma credit_well_formed (es : list edge_id) (hour : nat) (e : edge_id)
    (T T' : hourly) :
  credit hour e T = Ok T' -> well_formed es T -> well_formed es T'.
Proof.
  intros H [HL Hdom]. apply credit_inv in H as (gdf & c & Hh & He & ->).
  split; [by rewrite length_insert|].
  intros h g Hg. destruct (decide (h = hour)) as [->|Hne].
  - rewrite list_lookup_insert_eq in Hg by (eapply lookup_lt_Some; eauto).
    injection Hg as <-. rewrite dom_insert_lookup_L by eauto. eauto.
  - rewrite list_lookup_insert_ne in Hg by done. eauto.
Qed.

Lemma credit_total (es : list edge_id) (hour : nat) (e : edge_id) (T : hourly) :
  well_formed es T -> (hour < 24)%nat -> e ∈ es ->
  exists T' : hourly, credit hour e T = Ok T' /\ well_formed es T'.
Proof.
  intros Hwf Hh He. pose proof Hwf as [HL Hdom].
  destruct (lookup_lt_is_Some_2 T hour ltac:(lia)) as [g Hg].
  assert (is_Some (g !! e)) as [c Hc].
  { apply elem_of_dom. rewrite (Hdom _ _ Hg). by apply elem_of_list_to_set. }
  assert (credit hour e T = Ok (<[hour := <[e := c + 1]> g]> T)) as E
    by (unfold credit; rewrite Hg, Hc; reflexivity).
  eexists. split; [exact E|]. eapply credit_well_formed; eauto.
Qed.

(** ** What every credit keeps, every loop keeps *)

Section CreditClosed.
Context {geometry : Type} (w : world geometry).
Context (R : hourly -> hourly -> Prop).
Hypothesis R_refl : forall T : hourly, R T T.
Hypothesis R_trans : forall T1 T2 T3 : hourly, R T1 T2 -> R T2 T3 -> R T1 T3.
Hypothesis R_credit :
  forall (hour : nat) (e : edge_id) (T T' : hourly), credit hour e T = Ok T' -> R T T'.

Lemma for_each_closed {A} (body : A -> hourly -> result hourly) (xs : list A) :
  (forall x (T T' : hourly), body x T = Ok T' -> R T T') ->
  forall T T' : hourly, for_each body xs T = Ok T' -> R T T'.
Proof. intros H. apply for_each_rel; eauto. Qed.

Lemma commuter_hour_closed (m : mode) (home_edge work_edge : edge_id)
    (sch : schedule) (hour : nat) (T T' : hourly) :
  commuter_hour w m home_edge work_edge sch hour T = Ok T' -> R T T'.
Proof.
  rewrite commuter_hour_classify.
  destruct (classify sch hour); try (intros [= <-]; apply R_refl);
    try apply R_credit.
  destruct (mode_eqb m walk || mode_eqb m other).
  - unfold route_credits.
    destruct (route_edges w (edge_u home_edge) (edge_v work_edge))
      as [path_edges|[]]; cbn [bind]; try discriminate; [|apply R_credit].
    destruct (for_each (credit hour) path_edges T) as [T1|[]] eqn:E;
      try discriminate; [|apply R_credit].
    intros [= <-]. revert E. apply for_each_closed. apply R_credit.
  - destruct (mode_eqb m transit); [|intros [= <-]; apply R_refl].
    destruct (credit hour home_edge T) as [T1|] eqn:E; cbn [bind]; [|discriminate].
    intros H. eapply R_trans; eapply R_credit; eauto.
Qed.

Lemma simulate_worker_closed (m : mode) (tw : option (Q * Q))
    (roads : list edge_id) (od : list flow_record) (d : draws) (T T' : hourly) :
  simulate_worker w m tw roads od d T = Ok T' -> R T T'.
Proof.
  unfold simulate_worker.
  destruct (sample1 roads (home_pick d)) as [home_edge|]; cbn [bind]; [|discriminate].
  destruct (mode_eqb m wfh).
  - apply for_each_closed. intros hour T1 T2. unfold wfh_hour.
    destruct (negb _); [apply R_credit | intros [= <-]; apply R_refl].
  - destruct od as [|r od']; [intros [= <-]; apply R_refl|].
    destruct (sample_weighted w (r :: od') (od_pick d)) as [o|]; cbn [bind];
      [|discriminate].
    destruct (assign_work w (w_geocode o) d) as [[work_edge|]|]; cbn [bind];
      try discriminate; [|intros [= <-]; apply R_refl].
    destruct tw as [tw|]; [|discriminate].
    apply for_each_closed. intros hour; apply commuter_hour_closed.
Qed.

Lemma simulate_tract_closed (ir : nat * acs_row) (T T' : hourly) :
  simulate_tract w ir T = Ok T' -> R T T'.
Proof.
  unfold simulate_tract.
  destruct (assign_home_roads w (GEOID (snd ir))) as [[roads|]|]; cbn [bind];
    try discriminate; [|intros [= <-]; apply R_refl].
  apply for_each_closed. intros entry T1 T2.
  unfold simulate_variable, for_each_worker.
  destruct (_ <=? 0); [intros [= <-]; apply R_refl|].
  apply for_each_closed. intros k. apply simulate_worker_closed.
Qed.

Lemma simulate_all_closed (T : hourly) :
  simulate_all w = Ok T -> R (init_hourly (edges w)) T.
Proof.
  unfold simulate_all. apply for_each_closed.
  intros ir. apply simulate_tract_closed.
Qed.

End CreditClosed.

(** The table and the counters: a row for each positive counter. *)
Lemma finalize_spec (T : hourly) (r : row) :
  r ∈ finalize T <->
  exists g : frame,
    T !! row_hour r = Some g /\ g !! row_edge r = Some (row_count r) /\
    0 < row_count r.
Proof.
  unfold finalize. rewrite list_elem_of_join. split.
  - intros (rows & Hr & Hrows).
    apply elem_of_lookup_imap in Hrows as (hour & gdf & -> & Hh).
    apply list_elem_of_fmap in Hr as ([e c] & -> & Hec).
    apply list_elem_of_In, filter_In in Hec as [Hin Hpos].
    apply list_elem_of_In, elem_of_map_to_list in Hin.
    exists gdf. simpl in *. repeat split; auto. lia.
  - intros (g & Hg & He & Hpos). destruct r as [[e hour] c]. simpl in *.
    eexists. split; [|eapply elem_of_lookup_imap_2; exact Hg].
    apply list_elem_of_fmap. exists (e, c). split; [reflexivity|].
    apply list_elem_of_In, filter_In. split.
    + apply list_elem_of_In, elem_of_map_to_list. exact He.
    + simpl. lia.
Qed.

(** X6: the labels of the frames. While the simulation runs the
    dictionary holds 24 frames and each frame holds exactly the labels
    of the edges frame it was copied from, and every row of the
    returned table is about an edge of that frame. *)
Theorem X6_frames_keep_the_edge_labels {geometry : Type} (w : world geometry) :
  (forall T : hourly, simulate_all w = Ok T -> well_formed (edges w) T) /\
  (forall (rows : list row) (r : row),
      run_simulation w = Ok rows -> r ∈ rows -> row_edge r ∈ edges w).
Proof.
  assert (forall T : hourly, simulate_all w = Ok T -> well_formed (edges w) T) as Hwf.
  { intros T H.
    refine (simulate_all_closed w
              (fun T1 T2 => well_formed (edges w) T1 -> well_formed (edges w) T2)
              _ _ _ T H (init_hourly_well_formed _)); [auto | auto |].
    intros hour e T1 T2 Hc. exact (credit_well_formed _ _ _ _ _ Hc). }
  split; [exact Hwf|].
  intros rows r H Hr. unfold run_simulation in H.
  destruct (simulate_all w) as [T|] eqn:E; cbn [bind] in H; [|discriminate].
  injection H as <-. apply finalize_spec in Hr as (g & Hg & He & _).
  destruct (Hwf T eq_refl) as [_ Hdom].
  assert (row_edge r ∈ dom g) as Hin by (apply elem_of_dom; eauto).
  rewrite (Hdom _ _ Hg) in Hin. by apply elem_of_list_to_set in Hin.
Qed.

Lemma X6_frames_keep_the_edge_labels_witness :
  exists rows : list row,
    run_simulation (Town.town true Town.commuter_draws (Town.one_worker (B08132 67))
                      Town.both_tracts Town.flows) = Ok rows /\
    (Town.mid_edge, 8%nat, 1%Z) ∈ rows /\
    row_edge (Town.mid_edge, 8%nat, 1%Z)
    ∈ edges (Town.town true Town.commuter_draws (Town.one_worker (B08132 67))
               Town.both_tracts Town.flows).
Proof.
  eexists. split; [vm_compute; reflexivity|].
  assert ((Town.mid_edge, 8%nat, 1%Z) ∈
          [(Town.home_edge, 7%nat, 1%Z); (Town.work_edge, 8%nat, 1%Z);
           (Town.home_edge, 8%nat, 1%Z); (Town.mid_edge, 8%nat, 1%Z);
           (Town.work_edge, 9%nat, 1%Z); (Town.work_edge, 10%nat, 1%Z);
           (Town.work_edge, 11%nat, 1%Z); (Town.work_edge, 12%nat, 1%Z);
           (Town.work_edge, 13%nat, 1%Z); (Town.work_edge, 14%nat, 1%Z);
           (Town.work_edge, 15%nat, 1%Z); (Town.work_edge, 16%nat, 1%Z);
           (Town.home_edge, 18%nat, 1%Z); (Town.home_edge, 19%nat, 1%Z);
           (Town.home_edge, 20%nat, 1%Z); (Town.home_edge, 21%nat, 1%Z);
           (Town.home_edge, 22%nat, 1%Z); (Town.home_edge, 23%nat, 1%Z)]) as Hin
    by (do 3 apply list_elem_of_further; apply list_elem_of_here).
  split; [exact Hin|].
  eapply (proj2 (X6_frames_keep_the_edge_labels
                   (Town.town true Town.commuter_draws (Town.one_worker (B08132 67))
                      Town.both_tracts Town.flows)));
    [vm_compute; reflexivity | exact Hin].
Defined.

(** ** The roads of a tract *)

Section Returns.
Context {geometry : Type} (w : world geometry).

Lemma roads_in_edges (g : geometry) (e : edge_id) : e ∈ roads_in w g -> e ∈ edges w.
Proof.
  unfold roads_in. intros H. apply list_elem_of_In, filter_In in H as [H _].
  by apply list_elem_of_In.
Qed.

Lemma tract_geometry_cases (geoid : string) :
  (exists g, tract_geometry w geoid = Ok g) \/ tract_geometry w geoid = Raise IndexError.
Proof.
  unfold tract_geometry. destruct (List.filter _ (tracts_geo w)); simpl; eauto.
Qed.

Lemma assign_home_roads_returns (geoid : string) :
  exists o : option (list edge_id),
    assign_home_roads w geoid = Ok o /\
    forall roads, o = Some roads ->
                  roads <> [] /\ forall e, e ∈ roads -> e ∈ edges w.
Proof.
  unfold assign_home_roads.
  destruct (tract_geometry_cases geoid) as [[g ->] | ->]; cbn [bind];
    [|exists None; split; [reflexivity | discriminate]].
  destruct (roads_in w g) as [|x l] eqn:E;
    [exists None; split; [reflexivity | discriminate]|].
  exists (Some (x :: l)). split; [reflexivity|].
  intros ? [= <-]. split; [discriminate|].
  intros e He. apply (roads_in_edges g). by rewrite E.
Qed.

End Returns.

(** ** The day of a worker *)

(** Over any list of hours, the loop of lines 175-177 credits the home
    edge once per listed hour at which the test of line 176 fails, and
    no other edge, whatever the value of the test at each hour. *)
Lemma wfh_hours_credits (asleep : nat -> bool) (home_edge : edge_id) (hours : list nat) :
  forall (T T' : hourly) (h : nat) (e : edge_id),
    for_each (fun hour T => if negb (asleep hour) then credit hour home_edge T else Ok T)
             hours T = Ok T' ->
    foot_traffic T' h e =
    foot_traffic T h e +
    (if bool_decide (e = home_edge) && negb (asleep h)
     then Z.of_nat (count_occ Nat.eq_dec hours h)
     else 0).
Proof.
  induction hours as [|x xs IH]; intros T T' h e H.
  - simpl in H. injection H as <-. simpl. destruct (_ && _); lia.
  - cbn [for_each] in H.
    destruct (if negb (asleep x) then credit x home_edge T else Ok T) as [T1|] eqn:E;
      cbn [bind] in H; [|discriminate].
    rewrite (IH _ _ h e H). clear IH H.
    destruct (Nat.eq_dec x h) as [->|Hne].
    + rewrite count_occ_cons_eq by reflexivity.
      destruct (asleep h); simpl in E.
      * injection E as <-. rewrite andb_false_r. lia.
      * rewrite (foot_traffic_credit _ _ _ _ h e E), andb_true_r.
        destruct (decide (e = home_edge)) as [->|He].
        -- rewrite !bool_decide_eq_true_2 by auto. lia.
        -- rewrite !bool_decide_eq_false_2 by intuition congruence. lia.
    + rewrite count_occ_cons_neq by exact Hne.
      destruct (negb (asleep x)).
      * rewrite (foot_traffic_credit _ _ _ _ h e E).
        rewrite (bool_decide_eq_false_2 (h = x /\ e = home_edge))
          by intuition congruence.
        lia.
      * injection E as <-. lia.
Qed.

(** The day of a work-from-home worker in [simulate_worker] is
    [wfh_day] at the test of line 176. *)
Lemma simulate_worker_wfh_day {geometry : Type} (w : world geometry)
    (tw : option (Q * Q)) (roads : list edge_id) (od : list flow_record)
    (d : draws) (T : hourly) :
  simulate_worker w wfh tw roads od d T
  = let! home_edge := sample1 roads (home_pick d) in
    wfh_day (wfh_sleeping (wfh_sleep_start (normal_work_start d) (uniform_sleep d))
                          (uniform_sleep d))
            home_edge T.
Proof. reflexivity. Qed.

(** X4: the day of a work-from-home worker (lines 175-177) whose home
    edge is a label of the frames returns, and it changes the counters
    of the home edge only: by one in each hour of the day at which the
    test of line 176 fails, by nothing in the hours at which it holds
    and in no frame outside the day, whatever the value of the test at
    each hour. *)
Theorem X4_wfh_worker_day (asleep : nat -> bool) (es : list edge_id)
    (home_edge : edge_id) (T : hourly) :
  well_formed es T -> home_edge ∈ es ->
  exists T' : hourly,
    wfh_day asleep home_edge T = Ok T' /\
    well_formed es T' /\
    forall (h : nat) (e : edge_id),
      foot_traffic T' h e =
      foot_traffic T h e +
      (if bool_decide (h < 24)%nat && bool_decide (e = home_edge) && negb (asleep h)
       then 1 else 0).
Proof.
  intros Hwf Hin. unfold wfh_day.
  destruct (for_each_total
              (fun hour T => if negb (asleep hour) then credit hour home_edge T else Ok T)
              (well_formed es) (seq 0 24)) with (s := T)
    as (T' & HT' & Hwf'); [|exact Hwf|].
  { intros hour T1 Hhour HT1. apply list_elem_of_In, in_seq in Hhour.
    destruct (negb _); [|eauto]. apply credit_total; auto; lia. }
  exists T'. split; [exact HT'|]. split; [exact Hwf'|].
  intros h e. rewrite (wfh_hours_credits _ _ _ _ _ h e HT').
  destruct (decide (h < 24)%nat) as [Hh|Hh].
  - rewrite (bool_decide_eq_true_2 _ Hh), count_occ_range by exact Hh.
    reflexivity.
  - rewrite (bool_decide_eq_false_2 _ Hh).
    assert (count_occ Nat.eq_dec (seq 0 24) h = 0%nat) as ->.
    { apply count_occ_not_In. rewrite in_seq. lia. }
    destruct (_ && _); reflexivity.
Qed.

Lemma X4_wfh_worker_day_witness :
  exists T' : hourly,
    wfh_day Town.asleep_3_to_8 Town.home_edge Town.T0 = Ok T' /\
    well_formed [Town.home_edge; Town.mid_edge; Town.work_edge] T' /\
    forall (h : nat) (e : edge_id),
      foot_traffic T' h e =
      foot_traffic Town.T0 h e +
      (if bool_decide (h < 24)%nat && bool_decide (e = Town.home_edge)
          && negb (Town.asleep_3_to_8 h)
       then 1 else 0).
Proof.
  apply (X4_wfh_worker_day Town.asleep_3_to_8
           [Town.home_edge; Town.mid_edge; Town.work_edge] Town.home_edge Town.T0).
  - apply init_hourly_well_formed.
  - apply list_elem_of_here.
Defined.

(** A credit raises nothing but [KeyError]. *)
Lemma for_each_credit_raise (hour : nat) (path_edges : list edge_id) :
  forall (T : hourly) (e : exn),
    for_each (credit hour) path_edges T = Raise e -> e = KeyError.
Proof.
  induction path_edges as [|x xs IH]; intros T e H; [discriminate|].
  simpl in H. unfold credit at 1 in H.
  destruct (T !! hour) as [g|]; [|by injection H as <-].
  destruct (g !! x); [|by injection H as <-]. cbn [bind] in H. eauto.
Qed.

Lemma bind_Ok {A} (r : result A) : (let! a := r in Ok a) = r.
Proof. by destruct r. Qed.

(** The body of the commuter's loop is the sleep test followed by
    [awake_hour]. *)
Lemma commuter_hour_awake {geometry : Type} (w : world geometry) (m : mode)
    (home_edge work_edge : edge_id) (sch : schedule) (hour : nat) (T : hourly) :
  commuter_hour w m home_edge work_edge sch hour T
  = if is_sleeping (sleep_start_hour sch) (sleep_duration sch) hour then Ok T
    else awake_hour w m home_edge work_edge sch hour T.
Proof. reflexivity. Qed.

(** The day of a commuter in [simulate_worker] is [commuter_day] at the
    test of lines 205-206. *)
Lemma commuter_day_is_sleeping {geometry : Type} (w : world geometry) (m : mode)
    (home_edge work_edge : edge_id) (sch : schedule) (T : hourly) :
  for_each (commuter_hour w m home_edge work_edge sch) (seq 0 24) T
  = commuter_day w (is_sleeping (sleep_start_hour sch) (sleep_duration sch))
                 m home_edge work_edge sch T.
Proof. reflexivity. Qed.

(** An hour that is not slept, when it returns, is the credits of
    [awake_credits], one after the other. *)
Lemma awake_hour_credits {geometry : Type} (w : world geometry) (m : mode)
    (home_edge work_edge : edge_id) (sch : schedule) (hour : nat) (T T' : hourly) :
  awake_hour w m home_edge work_edge sch hour T = Ok T' ->
  for_each (credit hour) (awake_credits w m home_edge work_edge sch hour) T = Ok T'.
Proof.
  unfold awake_hour, awake_credits. cbv zeta.
  destruct (_ || _); [simpl; rewrite ?bind_Ok; auto|].
  destruct (_ && _); [simpl; rewrite ?bind_Ok; auto|].
  destruct (_ && _); [|simpl; auto].
  destruct (mode_eqb m walk || mode_eqb m other).
  - unfold route_credits.
    destruct (route_edges w (edge_u home_edge) (edge_v work_edge))
      as [path_edges|[]]; cbn [bind]; try discriminate.
    + destruct (for_each (credit hour) path_edges T) as [T1|e] eqn:E; [auto|].
      apply for_each_credit_raise in E as ->. discriminate.
    + simpl. rewrite bind_Ok. auto.
  - destruct (mode_eqb m transit); simpl; [|auto].
    destruct (credit hour home_edge T); cbn [bind]; [|discriminate].
    rewrite bind_Ok. auto.
Qed.

(** Over any list of hours: each hour that is not slept adds its own
    credits to its own counters, and to no counter of another hour. *)
Lemma commuter_hours_credits {geometry : Type} (w : world geometry)
    (asleep : nat -> bool) (m : mode) (home_edge work_edge : edge_id)
    (sch : schedule) (hours : list nat) :
  forall (T T' : hourly) (h : nat) (e : edge_id),
    for_each (fun hour T =>
                if asleep hour then Ok T
                else awake_hour w m home_edge work_edge sch hour T) hours T = Ok T' ->
    foot_traffic T' h e =
    foot_traffic T h e +
    Z.of_nat (count_occ Nat.eq_dec hours h) *
    (if asleep h then 0
     else occurrences e (awake_credits w m home_edge work_edge sch h)).
Proof.
  induction hours as [|x xs IH]; intros T T' h e H.
  - simpl in H. injection H as <-. simpl. lia.
  - cbn [for_each] in H.
    destruct (if asleep x then Ok T
              else awake_hour w m home_edge work_edge sch x T) as [T1|] eqn:E;
      cbn [bind] in H; [|discriminate].
    rewrite (IH _ _ h e H). clear IH H.
    destruct (Nat.eq_dec x h) as [->|Hne].
    + rewrite count_occ_cons_eq by reflexivity.
      destruct (asleep h).
      * injection E as <-. lia.
      * apply awake_hour_credits in E.
        rewrite (for_each_credit_path _ _ _ _ h e E). unfold occurrences.
        rewrite bool_decide_eq_true_2 by reflexivity. lia.
    + rewrite count_occ_cons_neq by exact Hne.
      destruct (asleep x).
      * injection E as <-. lia.
      * apply awake_hour_credits in E.
        rewrite (for_each_credit_path _ _ _ _ h e E).
        rewrite bool_decide_eq_false_2 by congruence. lia.
Qed.

(** X5: the day of a commuter (the loop of lines 204-229), when it
    returns, adds to the counter of every edge in every hour of the day
    that is not slept exactly the occurrences of the edge among the
    credits of that hour: the home edge in an hour at home, the work
    edge in an hour at work, the route (or the home edge after
    [NetworkXNoPath], or the home and the work edge for transit) on the
    way to work, nothing on the way back. A slept hour adds nothing,
    the hours do not interfere, and no counter outside the day's 24
    hours changes, whatever the value of the sleep test at each hour. *)
Theorem X5_commuter_day {geometry : Type} (w : world geometry)
    (asleep : nat -> bool) (m : mode) (home_edge work_edge : edge_id)
    (sch : schedule) (T T' : hourly) :
  commuter_day w asleep m home_edge work_edge sch T = Ok T' ->
  forall (h : nat) (e : edge_id),
    foot_traffic T' h e =
    foot_traffic T h e +
    (if bool_decide (h < 24)%nat && negb (asleep h)
     then occurrences e (awake_credits w m home_edge work_edge sch h)
     else 0).
Proof.
  intros H h e. unfold commuter_day in H.
  rewrite (commuter_hours_credits _ _ _ _ _ _ _ _ _ h e H).
  destruct (decide (h < 24)%nat) as [Hh|Hh].
  - rewrite (bool_decide_eq_true_2 _ Hh), count_occ_range by exact Hh.
    destruct (asleep h); simpl; lia.
  - rewrite (bool_decide_eq_false_2 _ Hh).
    assert (count_occ Nat.eq_dec (seq 0 24) h = 0%nat) as ->; [|simpl; lia].
    apply count_occ_not_In. rewrite in_seq. lia.
Qed.

Lemma X5_commuter_day_witness :
  match commuter_day
          (Town.town true Town.commuter_draws (Town.one_worker (B08132 52))
             Town.both_tracts Town.flows)
          (is_sleeping (sleep_start_hour Town.day) (sleep_duration Town.day))
          transit Town.home_edge Town.work_edge Town.day Town.T0 with
  | Ok T' =>
      foot_traffic T' 8 Town.work_edge =
      foot_traffic Town.T0 8 Town.work_edge +
      (if bool_decide (8 < 24)%nat
          && negb (is_sleeping (sleep_start_hour Town.day) (sleep_duration Town.day) 8)
       then occurrences Town.work_edge
              (awake_credits
                 (Town.town true Town.commuter_draws (Town.one_worker (B08132 52))
                    Town.both_tracts Town.flows)
                 transit Town.home_edge Town.work_edge Town.day 8)
       else 0)
  | Raise _ => False
  end.
Proof.
  assert (returns
            (commuter_day
               (Town.town true Town.commuter_draws (Town.one_worker (B08132 52))
                  Town.both_tracts Town.flows)
               (is_sleeping (sleep_start_hour Town.day) (sleep_duration Town.day))
               transit Town.home_edge Town.work_edge Town.day Town.T0) = true) as Hok
    by (vm_compute; reflexivity).
  destruct (commuter_day _ _ transit _ _ _ Town.T0) as [T'|] eqn:E; [|discriminate].
  apply (X5_commuter_day _ _ _ _ _ _ _ _ E).
Defined.

(** ** Exceptions that are not absorbed *)

(** X8: the weighted draw of the work tract (line 184) stands before the
    [try] of line 185. When it raises for a commuter whose home tract
    has flow records, the worker raises the same exception, and so does
    the loop over the workers of a variable whose first worker meets
    it: nothing is credited for the workers after it. *)
Theorem X8_weighted_draw_exception_propagates {geometry : Type}
    (w : world geometry) (i : nat) (home_tract : acs_row) (roads : list edge_id)
    (od : list flow_record) (var : acs_var) (m : mode) (tw : option (Q * Q))
    (T : hourly) (e : exn) :
  m <> wfh -> roads <> [] -> od <> [] ->
  0 < workers home_tract var ->
  sample_weighted w od (od_pick (rng w i var 0)) = Raise e ->
  simulate_worker w m tw roads od (rng w i var 0) T = Raise e /\
  simulate_variable w i home_tract roads od (var, (m, tw)) T = Raise e.
Proof.
  intros Hm Hroads Hod Hn He.
  assert (simulate_worker w m tw roads od (rng w i var 0) T = Raise e) as Hw.
  { unfold simulate_worker.
    destruct (sample1_nonempty roads (home_pick (rng w i var 0)) Hroads)
      as (home_edge & -> & _).
    cbn [bind]. assert (mode_eqb m wfh = false) as -> by (destruct m; done).
    destruct od as [|r od']; [done|]. rewrite He. reflexivity. }
  split; [exact Hw|].
  unfold simulate_variable, for_each_worker. cbn [fst snd].
  destruct (Z.leb_spec (workers home_tract var) 0); [lia|].
  destruct (Z.to_nat (workers home_tract var)) as [|n] eqn:En; [lia|].
  cbn [seq]. apply for_each_raise. exact Hw.
Qed.

(** X9: on the way to work of a walker (lines 216-223) only
    [NetworkXNoPath] is absorbed. Another exception of the router leaves
    the hour as it is raised, and a route with an edge that is no label
    of the frame of the hour raises [KeyError]. *)
Theorem X9_only_no_path_is_absorbed {geometry : Type} (w : world geometry)
    (m : mode) (home_edge work_edge : edge_id) (sch : schedule) (hour : nat)
    (T : hourly) :
  classify sch hour = commuting_out ->
  m = walk \/ m = other ->
  (forall e : exn,
      route_edges w (edge_u home_edge) (edge_v work_edge) = Raise e ->
      e <> NetworkXNoPath ->
      commuter_hour w m home_edge work_edge sch hour T = Raise e) /\
  (forall (path_edges : list edge_id) (g : frame) (x : edge_id),
      route_edges w (edge_u home_edge) (edge_v work_edge) = Ok path_edges ->
      T !! hour = Some g -> x ∈ path_edges -> g !! x = None ->
      commuter_hour w m home_edge work_edge sch hour T = Raise KeyError).
Proof.
  intros Hout Hm.
  assert (mode_eqb m walk || mode_eqb m other = true) as Hwalk
    by (destruct Hm as [-> | ->]; reflexivity).
  split.
  - intros e Hr Hne. rewrite commuter_hour_classify, Hout, Hwalk.
    unfold route_credits. rewrite Hr. cbn [bind]. destruct e; congruence.
  - intros path_edges g x Hr Hg Hx Hnone.
    rewrite commuter_hour_classify, Hout, Hwalk.
    unfold route_credits. rewrite Hr. cbn [bind].
    assert (for_each (credit hour) path_edges T = Raise KeyError) as ->;
      [|reflexivity].
    clear Hr. revert T g Hg Hnone.
    induction path_edges as [|y ys IH]; intros T g Hg Hnone;
      [by apply elem_of_nil in Hx|].
    cbn [for_each]. unfold credit at 1. rewrite Hg.
    destruct (g !! y) as [c|] eqn:Ey; [|reflexivity]. cbn [bind].
    assert (x <> y) as Hxy by congruence.
    apply elem_of_cons in Hx as [->|Hx]; [done|].
    apply (IH Hx _ (<[y := c + 1]> g)).
    + apply list_lookup_insert_eq. eapply lookup_lt_Some; eauto.
    + by rewrite lookup_insert_ne.
Qed.

Lemma X9_only_no_path_is_absorbed_witness :
  commuter_hour
    (Town.town_with (fun _ _ => Raise KeyError) Town.commuter_draws
       (Town.one_worker (B08132 67)) Town.both_tracts Town.flows)
    walk Town.home_edge Town.work_edge Town.day 8 Town.T0 = Raise KeyError /\
  commuter_hour
    (Town.town_with (fun _ _ => Raise TypeError) Town.commuter_draws
       (Town.one_worker (B08132 67)) Town.both_tracts Town.flows)
    other Town.home_edge Town.work_edge Town.day 8 Town.T0 = Raise TypeError /\
  commuter_hour
    (Town.town true Town.commuter_draws (Town.one_worker (B08132 67))
       Town.both_tracts Town.flows)
    walk Town.home_edge Town.work_edge Town.day 8
    (init_hourly [Town.home_edge; Town.work_edge]) = Raise KeyError.
Proof.
  assert (classify Town.day 8 = commuting_out) as Hout by (vm_compute; reflexivity).
  split; [|split].
  - apply (proj1 (X9_only_no_path_is_absorbed
                    (Town.town_with (fun _ _ => Raise KeyError) Town.commuter_draws
                       (Town.one_worker (B08132 67)) Town.both_tracts Town.flows)
                    walk Town.home_edge Town.work_edge Town.day 8 Town.T0
                    Hout (or_introl eq_refl)) KeyError);
      [reflexivity | discriminate].
  - apply (proj1 (X9_only_no_path_is_absorbed
                    (Town.town_with (fun _ _ => Raise TypeError) Town.commuter_draws
                       (Town.one_worker (B08132 67)) Town.both_tracts Town.flows)
                    other Town.home_edge Town.work_edge Town.day 8 Town.T0
                    Hout (or_intror eq_refl)) TypeError);
      [reflexivity | discriminate].
  - apply (proj2 (X9_only_no_path_is_absorbed
                    (Town.town true Town.commuter_draws (Town.one_worker (B08132 67))
                       Town.both_tracts Town.flows)
                    walk Town.home_edge Town.work_edge Town.day 8
                    (init_hourly [Town.home_edge; Town.work_edge])
                    Hout (or_introl eq_refl))
             [Town.home_edge; Town.mid_edge; Town.work_edge]
             (zero_frame [Town.home_edge; Town.work_edge]) Town.mid_edge).
    + reflexivity.
    + reflexivity.
    + apply list_elem_of_further, list_elem_of_here.
    + vm_compute. reflexivity.
Defined.

(** ** The table *)

Lemma finalize_from (f : nat -> nat) (T : hourly) :
  (forall a b, f a = f b -> a = b) ->
  NoDup (mjoin (imap (fun hour (gdf : frame) =>
                        (fun ec : edge_id * Z => (fst ec, f hour, snd ec)) <$>
                        List.filter (fun ec : edge_id * Z => 0 <? snd ec)
                                    (map_to_list gdf))
                     T)).
Proof.
  revert f. induction T as [|g T IH]; intros f Hf; [constructor|].
  simpl. apply NoDup_app. split; [|split].
  - apply NoDup_fmap_2_strong.
    + intros [e1 c1] [e2 c2] _ _ [=]. simpl in *. congruence.
    + apply NoDup_ListNoDup, List.NoDup_filter, NoDup_ListNoDup, NoDup_map_to_list.
  - intros r Hr Hin.
    apply list_elem_of_fmap in Hr as (ec & -> & _).
    apply list_elem_of_join in Hin as (rows & Hin & Hrows).
    apply elem_of_lookup_imap in Hrows as (hour & gdf & -> & _).
    apply list_elem_of_fmap in Hin as (ec' & Heq & _).
    injection Heq as _ Hh _. apply Hf in Hh. discriminate.
  - apply (IH (fun hour => f (S hour))). intros a b H. apply Hf in H. congruence.
Qed.

(** X10: the returned table and the counters say the same. Every row
    carries the counter of its edge in its hour; every counter above
    zero has its row; and no edge has two rows in one hour. *)
Theorem X10_table_is_the_positive_counters (T : hourly) :
  (forall r : row,
      r ∈ finalize T ->
      foot_traffic T (row_hour r) (row_edge r) = row_count r /\ 0 < row_count r) /\
  (forall (hour : nat) (e : edge_id),
      0 < foot_traffic T hour e ->
      (e, hour, foot_traffic T hour e) ∈ finalize T) /\
  NoDup (finalize T) /\
  (forall r1 r2 : row,
      r1 ∈ finalize T -> r2 ∈ finalize T ->
      row_edge r1 = row_edge r2 -> row_hour r1 = row_hour r2 -> r1 = r2).
Proof.
  assert (forall r : row,
             r ∈ finalize T ->
             foot_traffic T (row_hour r) (row_edge r) = row_count r /\
             0 < row_count r) as Hrow.
  { intros r Hr. apply finalize_spec in Hr as (g & Hg & He & Hpos).
    unfold foot_traffic. rewrite Hg, He. auto. }
  split; [exact Hrow|]. split; [|split].
  - intros hour e Hpos. apply finalize_spec. cbn [row_hour row_edge row_count fst snd].
    unfold foot_traffic in *.
    destruct (T !! hour) as [g|] eqn:Hg; [|lia].
    destruct (g !! e) as [c|] eqn:He; simpl in *; [|lia].
    exists g. auto.
  - apply (finalize_from (fun hour => hour)). auto.
  - intros [[e1 h1] c1] [[e2 h2] c2] H1 H2 He Hh.
    apply Hrow in H1 as [H1 _]. apply Hrow in H2 as [H2 _].
    unfold row_edge, row_hour, row_count in *. cbn [fst snd] in *. congruence.
Qed.

(** ** A run without workers *)

Lemma for_each_unchanged {A S} (body : A -> S -> result S) (xs : list A) (s : S) :
  (forall x, x ∈ xs -> body x s = Ok s) -> for_each body xs s = Ok s.
Proof.
  induction xs as [|x xs IH]; intros H; [reflexivity|].
  simpl. rewrite H by apply list_elem_of_here. cbn [bind].
  apply IH. intros y Hy. apply H. by apply list_elem_of_further.
Qed.

Lemma finalize_init (es : list edge_id) : finalize (init_hourly es) = [].
Proof.
  apply elem_of_nil_inv. intros r Hr.
  apply finalize_spec in Hr as (g & Hg & He & Hpos).
  pose proof (foot_traffic_init es (row_hour r) (row_edge r)) as H0.
  unfold foot_traffic in H0. rewrite Hg, He in H0. simpl in H0. lia.
Qed.

(** X11: when no tract row reports a positive count for any variable of
    the table (in particular when there is no tract row), the run
    returns the empty table, whatever the tracts, flows, router and
    random source are. *)
Theorem X11_no_positive_count_empty_table {geometry : Type} (w : world geometry) :
  (forall (home_tract : acs_row) (entry : acs_var * (mode * option (Q * Q))),
      home_tract ∈ acs_data w -> entry ∈ define_acs_variables ->
      workers home_tract (fst entry) <= 0) ->
  run_simulation w = Ok [].
Proof.
  intros Hcounts. unfold run_simulation, simulate_all.
  rewrite for_each_unchanged; [cbn [bind]; by rewrite finalize_init|].
  intros [i home_tract] Hir. unfold simulate_tract. cbn [fst snd].
  destruct (assign_home_roads_returns w (GEOID home_tract)) as ([roads|] & -> & _);
    cbn [bind]; [|reflexivity].
  apply for_each_unchanged. intros entry Hentry.
  unfold simulate_variable, for_each_worker.
  assert (home_tract ∈ acs_data w) as Hin.
  { apply elem_of_lookup_imap in Hir as (k & r & [= _ ->] & Hr).
    eapply list_elem_of_lookup_2; eauto. }
  destruct (Z.leb_spec (workers home_tract (fst entry)) 0); [reflexivity|].
  specialize (Hcounts _ _ Hin Hentry). lia.
Qed.

Lemma X11_no_positive_count_empty_table_witness :
  run_simulation (Town.town true Town.commuter_draws (fun _ => -666666666)
                    Town.both_tracts Town.flows) = Ok [].
Proof.
  apply X11_no_positive_count_empty_table. intros home_tract entry Hin _.
  simpl in Hin. apply list_elem_of_singleton in Hin as ->. simpl. lia.
Defined.

Lemma X8_weighted_draw_exception_propagates_witness :
  let w := Town.town true Town.commuter_draws (Town.one_worker (B08132 67))
             Town.both_tracts Town.flows in
  let od := [ {| h_geocode := "24510000100"; w_geocode := "24510000200";
                 S000 := 0 |} ] in
  let home_tract := {| GEOID := "24510000100";
                       workers := Town.one_worker (B08132 67) |} in
  simulate_worker w walk (Some Town.window) [Town.home_edge] od
    (rng w 0%nat (B08132 67) 0%nat) Town.T0 = Raise ValueError /\
  simulate_variable w 0%nat home_tract [Town.home_edge] od
    (B08132 67, (walk, Some Town.window)) Town.T0 = Raise ValueError.
Proof.
  cbv zeta.
  apply (X8_weighted_draw_exception_propagates
           (Town.town true Town.commuter_draws (Town.one_worker (B08132 67))
              Town.both_tracts Town.flows)
           0%nat
           {| GEOID := "24510000100"; workers := Town.one_worker (B08132 67) |}).
  - discriminate.
  - discriminate.
  - discriminate.
  - reflexivity.
  - reflexivity.
Defined.

(** ** Credits in any order *)

(** X12: two credits, of any hours and edges, give the same frames in
    either order, and when one order raises [KeyError] so does the
    other. *)
Theorem X12_credits_commute (h1 h2 : nat) (e1 e2 : edge_id) (T : hourly) :
  (let! T1 := credit h1 e1 T in credit h2 e2 T1) =
  (let! T2 := credit h2 e2 T in credit h1 e1 T2).
Proof.
  unfold credit.
  destruct (decide (h1 = h2)) as [->|Hh].
  - destruct (T !! h2) as [g|] eqn:Eg; [|reflexivity].
    assert (h2 < length T)%nat as Hlt by (eapply lookup_lt_Some; eauto).
    destruct (decide (e1 = e2)) as [->|He]; [reflexivity|].
    destruct (g !! e1) as [c1|] eqn:E1; destruct (g !! e2) as [c2|] eqn:E2;
      cbn [bind]; rewrite ?list_lookup_insert_eq by exact Hlt;
      rewrite ?lookup_insert_ne by congruence; rewrite ?E1, ?E2; try reflexivity.
    rewrite !list_insert_insert_eq. f_equal. f_equal.
    apply insert_insert_ne. congruence.
  - destruct (T !! h1) as [g1|] eqn:Eg1; destruct (T !! h2) as [g2|] eqn:Eg2.
    + destruct (g1 !! e1) as [c1|] eqn:E1; destruct (g2 !! e2) as [c2|] eqn:E2;
        cbn [bind]; rewrite ?list_lookup_insert_ne by congruence;
        rewrite ?Eg1, ?Eg2, ?E1, ?E2; try reflexivity.
      f_equal. apply list_insert_insert_ne. congruence.
    + destruct (g1 !! e1) as [c1|] eqn:E1; cbn [bind];
        rewrite ?list_lookup_insert_ne by congruence; rewrite ?Eg2; reflexivity.
    + destruct (g2 !! e2) as [c2|] eqn:E2; cbn [bind];
        rewrite ?list_lookup_insert_ne by congruence; rewrite ?Eg1; reflexivity.
    + reflexivity.
Qed.

(** ** The table of variables, by name *)

(** X13: [define_acs_variables] builds 71 entries under 71 different
    names, so that no entry of the dictionary overwrites another; the
    work-from-home variable is the only one without a window, and each
    of the five commute modes has exactly 14 variables that carry the 14
    departure windows in their order. *)
Theorem X13_variable_table_by_name :
  length define_acs_variables = 71%nat /\
  NoDup ((fun entry => var_name (fst entry)) <$> define_acs_variables) /\
  variables_of wfh = [(B08006 17, (wfh, None))] /\
  forall m : mode,
    m <> wfh ->
    (fun entry => snd (snd entry)) <$> variables_of m = Some <$> time_windows.
Proof.
  split; [reflexivity|]. split; [|split; [reflexivity|]].
  - apply (bool_decide_unpack _). vm_compute. exact I.
  - intros [] Hm; try done; vm_compute; reflexivity.
Qed.

(** ** The frames of the animation *)

Lemma frame_file_inj (h1 h2 : nat) :
  (h1 < 24)%nat -> (h2 < 24)%nat -> frame_file h1 = frame_file h2 -> h1 = h2.
Proof.
  intros H1 H2 E.
  assert (forallb (fun a =>
            forallb (fun b => implb (String.eqb (frame_file a) (frame_file b))
                                    (a =? b)%nat)
                    (seq 0 24))
            (seq 0 24) = true) as Hall by (vm_compute; reflexivity).
  rewrite forallb_forall in Hall.
  specialize (Hall h1 (proj2 (in_seq 24 0 h1) ltac:(lia))).
  rewrite forallb_forall in Hall.
  specialize (Hall h2 (proj2 (in_seq 24 0 h2) ltac:(lia))).
  rewrite E, String.eqb_refl in Hall. simpl in Hall. by apply Nat.eqb_eq.
Qed.

Lemma frame_file_not_animation (h : nat) :
  (h < 24)%nat -> frame_file h <> ANIMATION_FILE.
Proof.
  intros Hh E.
  assert (forallb (fun a => negb (String.eqb (frame_file a) ANIMATION_FILE))
                  (seq 0 24) = true) as Hall by (vm_compute; reflexivity).
  rewrite forallb_forall in Hall.
  specialize (Hall h (proj2 (in_seq 24 0 h) ltac:(lia))).
  rewrite E, String.eqb_refl in Hall. discriminate.
Qed.

Section Animation.
Context (vmax : Q) (data : list row).

Lemma render_step (d : desk) (filenames : list string) (h : nat) :
  render vmax data (d, filenames) h =
  if has_rows data h
  then ({| files := save_frame vmax data (files d) h; figures := figures d |},
        filenames ++ [frame_file h])
  else ({| files := files d; figures := S (figures d) |}, filenames).
Proof.
  unfold render, has_rows, save_frame, shot. cbn [fst snd].
  destruct (hour_data data h); reflexivity.
Qed.

Lemma render_fold (hours : list nat) :
  forall (d : desk) (filenames : list string),
    fold_left (render vmax data) hours (d, filenames) =
    ({| files := fold_left (save_frame vmax data) (List.filter (has_rows data) hours) (files d);
        figures := figures d + length (List.filter (fun h => negb (has_rows data h)) hours) |},
     filenames ++ (frame_file <$> List.filter (has_rows data) hours)).
Proof.
  induction hours as [|h hs IH]; intros d filenames.
  - simpl. rewrite Nat.add_0_r, app_nil_r. by destruct d.
  - cbn [fold_left List.filter]. rewrite render_step.
    destruct (has_rows data h); rewrite IH; cbn [files figures negb length fold_left].
    + rewrite <- app_assoc. reflexivity.
    + f_equal. f_equal. lia.
Qed.

(** The loop over the 24 hours. *)
Lemma render_day (d : desk) :
  fold_left (render vmax data) (seq 0 24) (d, []) =
  ({| files := fold_left (save_frame vmax data) (frame_hours data) (files d);
      figures := figures d + (24 - length (frame_hours data)) |},
   frame_file <$> frame_hours data).
Proof.
  rewrite render_fold. unfold frame_hours, hours_where.
  pose proof (List.filter_length (has_rows data) (seq 0 24)) as Hlen.
  rewrite length_seq in Hlen. cbn [app]. f_equal. f_equal. lia.
Qed.

Lemma save_fold_other (hours : list nat) (fs : gmap string (list picture))
    (name : string) :
  (forall h, h ∈ hours -> name <> frame_file h) ->
  fold_left (save_frame vmax data) hours fs !! name = fs !! name.
Proof.
  revert fs. induction hours as [|h hs IH]; intros fs Hname; [reflexivity|].
  cbn [fold_left]. rewrite IH.
  - unfold save_frame. apply lookup_insert_ne. intros E. eapply Hname; [|by rewrite E].
    apply list_elem_of_here.
  - intros k Hk. apply Hname. by apply list_elem_of_further.
Qed.

Lemma save_fold_frame (hours : list nat) (fs : gmap string (list picture)) (h : nat) :
  (forall k, k ∈ hours -> (k < 24)%nat) -> h ∈ hours ->
  fold_left (save_frame vmax data) hours fs !! frame_file h = Some [shot vmax data h].
Proof.
  revert fs. induction hours as [|x xs IH]; intros fs Hlt Hin;
    [by apply elem_of_nil in Hin|].
  cbn [fold_left].
  destruct (decide (h ∈ xs)) as [Hxs|Hxs].
  - apply IH; [|exact Hxs]. intros k Hk. apply Hlt. by apply list_elem_of_further.
  - apply elem_of_cons in Hin as [->|Hin]; [|done].
    rewrite save_fold_other; [apply lookup_insert_eq|].
    intros k Hk E. apply frame_file_inj in E.
    + congruence.
    + apply Hlt, list_elem_of_here.
    + apply Hlt. by apply list_elem_of_further.
Qed.

Lemma read_frames_saved (fs : gmap string (list picture)) (hours : list nat) :
  (forall h, h ∈ hours -> fs !! frame_file h = Some [shot vmax data h]) ->
  read_frames fs (frame_file <$> hours) = Done (shot vmax data <$> hours).
Proof.
  induction hours as [|h hs IH]; intros H; [reflexivity|].
  cbn [fmap list_fmap read_frames]. rewrite (H h) by apply list_elem_of_here.
  change (list_fmap nat string frame_file hs) with (frame_file <$> hs).
  rewrite IH; [reflexivity|].
  intros k Hk. apply H. by apply list_elem_of_further.
Qed.

Lemma remove_files_saved (hours : list nat) :
  forall fs : gmap string (list picture),
    NoDup hours -> (forall k, k ∈ hours -> (k < 24)%nat) ->
    (forall h, h ∈ hours -> is_Some (fs !! frame_file h)) ->
    exists fs' : gmap string (list picture),
      remove_files (frame_file <$> hours) fs = Done fs' /\
      (forall h, h ∈ hours -> fs' !! frame_file h = None) /\
      (forall name, (forall h, h ∈ hours -> name <> frame_file h) ->
                    fs' !! name = fs !! name).
Proof.
  induction hours as [|h hs IH]; intros fs Hnd Hlt Hsome.
  - exists fs. split; [reflexivity|]. split; [|auto].
    intros h Hh. by apply elem_of_nil in Hh.
  - apply NoDup_cons in Hnd as [Hh Hnd].
    cbn [fmap list_fmap remove_files].
    destruct (Hsome h (list_elem_of_here _ _)) as [x ->].
    change (list_fmap nat string frame_file hs) with (frame_file <$> hs).
    destruct (IH (delete (frame_file h) fs) Hnd) as (fs' & -> & Hgone & Hkeep).
    + intros k Hk. apply Hlt. by apply list_elem_of_further.
    + intros k Hk. rewrite lookup_delete_ne.
      * apply Hsome. by apply list_elem_of_further.
      * intros E. apply frame_file_inj in E; [congruence| |].
        -- apply Hlt, list_elem_of_here.
        -- apply Hlt. by apply list_elem_of_further.
    + exists fs'. split; [reflexivity|]. split.
      * intros k Hk. apply elem_of_cons in Hk as [->|Hk]; [|by apply Hgone].
        rewrite Hkeep; [apply lookup_delete_eq|].
        intros j Hj E. apply frame_file_inj in E; [congruence| |].
        -- apply Hlt, list_elem_of_here.
        -- apply Hlt. by apply list_elem_of_further.
      * intros name Hname. rewrite Hkeep.
        -- apply lookup_delete_ne. intros E. eapply Hname; [|by rewrite E].
           apply list_elem_of_here.
        -- intros j Hj. apply Hname. by apply list_elem_of_further.
Qed.

End Animation.

Lemma frame_hours_lt (data : list row) (h : nat) : h ∈ frame_hours data -> (h < 24)%nat.
Proof.
  unfold frame_hours, hours_where. intros H.
  apply list_elem_of_In, filter_In in H as [H _]. apply in_seq in H. lia.
Qed.

Lemma frame_hours_NoDup (data : list row) : NoDup (frame_hours data).
Proof.
  unfold frame_hours, hours_where.
  apply NoDup_ListNoDup, List.NoDup_filter, seq_NoDup.
Qed.

(** The whole of [create_animation] on a table with rows. *)
Lemma create_animation_run (quantile99 : list Z -> Q) (data : list row) (d : desk) :
  data <> [] ->
  let vmax := quantile99 (row_count <$> data) in
  exists d' : desk,
    create_animation quantile99 data d = Done d' /\
    files d' !! ANIMATION_FILE
    = Some (shot vmax data <$> frame_hours data) /\
    (forall h, h ∈ frame_hours data -> files d' !! frame_file h = None) /\
    (forall name,
        name <> ANIMATION_FILE ->
        (forall h, h ∈ frame_hours data -> name <> frame_file h) ->
        files d' !! name = files d !! name) /\
    figures d' = (figures d + (24 - length (frame_hours data)))%nat.
Proof.
  intros Hdata. cbv zeta. unfold create_animation.
  destruct data as [|r0 rest]; [done|]. clear Hdata.
  set (data := r0 :: rest). set (vmax := quantile99 (row_count <$> data)).
  rewrite render_day. cbn [fst snd].
  set (saved := fold_left (save_frame vmax data) (frame_hours data) (files d)).
  cbn [files figures].
  assert (forall h, h ∈ frame_hours data ->
                    saved !! frame_file h = Some [shot vmax data h])
    as Hsaved.
  { intros h Hh. apply (save_fold_frame vmax data); [apply frame_hours_lt | exact Hh]. }
  rewrite (read_frames_saved vmax data).
  2:{ intros h Hh. rewrite lookup_insert_ne
        by (apply not_eq_sym, frame_file_not_animation; eapply frame_hours_lt; eauto).
      by apply Hsaved. }
  cbn [io_bind]. rewrite insert_insert_eq.
  destruct (remove_files_saved (frame_hours data)
              (<[ANIMATION_FILE := shot vmax data <$> frame_hours data]> saved))
    as (fs' & -> & Hgone & Hkeep).
  { apply frame_hours_NoDup. }
  { apply frame_hours_lt. }
  { intros h Hh. rewrite lookup_insert_ne
      by (apply not_eq_sym, frame_file_not_animation; eapply frame_hours_lt; eauto).
    rewrite Hsaved by exact Hh. eauto. }
  cbn [io_bind]. eexists. split; [reflexivity|]. cbn [files figures].
  split; [|split; [exact Hgone|split]].
  - rewrite Hkeep; [apply lookup_insert_eq|].
    intros h Hh. apply not_eq_sym, frame_file_not_animation.
    eapply frame_hours_lt; eauto.
  - intros name Hname Hframes. rewrite Hkeep by exact Hframes.
    rewrite lookup_insert_ne by congruence.
    apply (save_fold_other vmax data). exact Hframes.
  - reflexivity.
Qed.

Lemma frame_hours_spec (data : list row) (h : nat) :
  h ∈ frame_hours data <-> (h < 24)%nat /\ exists r, r ∈ data /\ row_hour r = h.
Proof.
  unfold frame_hours, hours_where, has_rows, hour_data.
  rewrite list_elem_of_In, filter_In, in_seq. split.
  - intros [Hh Hrows]. split; [lia|].
    destruct (List.filter _ data) as [|r rows] eqn:E; [discriminate|].
    assert (In r (List.filter (fun r => (row_hour r =? h)%nat) data)) as Hin
      by (rewrite E; left; reflexivity).
    apply filter_In in Hin as [Hin Heq]. exists r.
    split; [by apply list_elem_of_In | by apply Nat.eqb_eq].
  - intros [Hh (r & Hr & Heq)]. split; [lia|].
    destruct (List.filter _ data) as [|r' rows] eqn:E; [|reflexivity].
    assert (In r (List.filter (fun r => (row_hour r =? h)%nat) data)) as Hin.
    { apply filter_In. split; [by apply list_elem_of_In | by apply Nat.eqb_eq]. }
    rewrite E in Hin. destruct Hin.
Qed.

(** X14: [create_animation] on a table with rows returns without a
    missing file; afterwards the animation file holds one frame for each
    hour of the day that has rows, in the order of the hours, no frame
    file of these hours is left, and every other file is as it was. *)
Theorem X14_animation_frames_and_cleanup (quantile99 : list Z -> Q)
    (data : list row) (d : desk) :
  data <> [] ->
  exists d' : desk,
    create_animation quantile99 data d = Done d' /\
    files d' !! ANIMATION_FILE
    = Some (shot (quantile99 (row_count <$> data)) data <$> frame_hours data) /\
    title_hour <$> (shot (quantile99 (row_count <$> data)) data <$> frame_hours data)
    = frame_hours data /\
    (forall h, h ∈ frame_hours data <->
               (h < 24)%nat /\ exists r, r ∈ data /\ row_hour r = h) /\
    (forall h, h ∈ frame_hours data -> files d' !! frame_file h = None) /\
    (forall name,
        name <> ANIMATION_FILE ->
        (forall h, h ∈ frame_hours data -> name <> frame_file h) ->
        files d' !! name = files d !! name).
Proof.
  intros Hdata.
  destruct (create_animation_run quantile99 data d Hdata)
    as (d' & Hrun & Hgif & Hgone & Hkeep & _).
  exists d'. split; [exact Hrun|]. split; [exact Hgif|].
  split; [|split; [apply frame_hours_spec | split; assumption]].
  rewrite <- list_fmap_compose. apply list_fmap_id.
Qed.

Lemma X14_animation_frames_and_cleanup_witness :
  let data := [((1, 2, 0), 7%nat, 1); ((3, 4, 0), 9%nat, 2)] in
  let d := {| files := ∅; figures := 0 |} in
  exists d' : desk,
    create_animation (fun _ => 2%Q) data d = Done d' /\
    files d' !! ANIMATION_FILE = Some (shot 2%Q data <$> frame_hours data) /\
    title_hour <$> (shot 2%Q data <$> frame_hours data) = frame_hours data /\
    (forall h, h ∈ frame_hours data <->
               (h < 24)%nat /\ exists r, r ∈ data /\ row_hour r = h) /\
    (forall h, h ∈ frame_hours data -> files d' !! frame_file h = None) /\
    (forall name,
        name <> ANIMATION_FILE ->
        (forall h, h ∈ frame_hours data -> name <> frame_file h) ->
        files d' !! name = files d !! name).
Proof.
  cbv zeta.
  apply (X14_animation_frames_and_cleanup (fun _ => 2%Q)
           [((1, 2, 0), 7%nat, 1); ((3, 4, 0), 9%nat, 2)]
           {| files := ∅; figures := 0 |}).
  discriminate.
Defined.

(** X15: the figures of [create_animation]. On an empty table it
    returns at once: no file is touched and no figure opened. On a table
    with rows a figure is opened for each of the 24 hours and closed
    only after a frame was saved, so that one figure stays open for
    every hour of the day without rows. *)
Theorem X15_figures_left_open (quantile99 : list Z -> Q) (d : desk) :
  create_animation quantile99 [] d = Done d /\
  forall (data : list row) (d' : desk),
    data <> [] ->
    create_animation quantile99 data d = Done d' ->
    figures d' = (figures d + (24 - length (frame_hours data)))%nat.
Proof.
  split; [reflexivity|]. intros data d' Hdata Hrun.
  destruct (create_animation_run quantile99 data d Hdata)
    as (d'' & Hrun' & _ & _ & _ & Hfig).
  congruence.
Qed.

Lemma X15_figures_left_open_witness :
  let data := [((1, 2, 0), 7%nat, 1); ((3, 4, 0), 9%nat, 2)] in
  let d := {| files := ∅; figures := 0 |} in
  match create_animation (fun _ => 2%Q) data d with
  | Done d' => figures d' = (figures d + (24 - length (frame_hours data)))%nat
  | FileNotFoundError => False
  end.
Proof.
  cbv zeta.
  destruct (create_animation (fun _ => 2%Q)
              [((1, 2, 0), 7%nat, 1); ((3, 4, 0), 9%nat, 2)]
              {| files := ∅; figures := 0 |}) as [d'|] eqn:E.
  - apply (proj2 (X15_figures_left_open (fun _ => 2%Q)
                    {| files := ∅; figures := 0 |})
             [((1, 2, 0), 7%nat, 1); ((3, 4, 0), 9%nat, 2)] d');
      [discriminate | exact E].
  - vm_compute in E. discriminate.
Defined.


